(** * note-rest-api-guide: the Express application of [app.js] and [payment.js]

    The executable part of the repository is an Express application:
    [app.js] mounts [express.json()], the router of [./User], the router of
    [./payment] and a handler for [GET /]; [payment.js] declares one route,
    [GET /users/:id/payment], whose handler echoes [req.params.id] and
    [req.query.filter] through [res.send].

    What those calls do is decided by Express, so the development has two
    layers.  The first is the framework as the source uses it, written after
    Express 4 and the packages it delegates to: route paths and parameter
    decoding ([path-to-regexp], [decodeURIComponent]), [res.send] with its
    content type, entity tag and freshness check ([etag], [fresh]), the JSON
    body parser ([body-parser]), the router and the final handler.  The second
    is the two source files, translated line by line on top of it
    ([Payment], [App]).  The module [./User] is not among the sources and is a
    parameter of the application.

    Strings are sequences of bytes (the UTF-8 form of the JavaScript string).

    Layout: the model; the predicates and requests the statements use; the
    model run on known values; lemmas; the claims of the specification
    (C1 to C6, C9 and C10); further properties of the routes, the stack and
    the responses (X1 to X18). *)

From Stdlib Require Import String Ascii List ZArith Bool Lia DecimalString.
Import ListNotations.
Open Scope string_scope.
Open Scope list_scope.

Set Warnings "-register-all".

(* ------------------------------------------------------------------ *)
(** ** Characters and strings *)

Module Str.

Definition code (c : ascii) : Z := Z.of_N (N_of_ascii c).
Definition chr (z : Z) : ascii := ascii_of_N (Z.to_N z).

Definition in_range (lo hi : Z) (c : ascii) : bool :=
  ((lo <=? code c) && (code c <=? hi))%Z.

(** ASCII letters only: without the [u] flag a JavaScript regular expression
    never folds a non-ASCII character onto an ASCII one. *)
Definition lower (c : ascii) : ascii :=
  if in_range 65 90 c then chr (code c + 32) else c.

Fixpoint toLowerCase (s : string) : string :=
  match s with
  | EmptyString => EmptyString
  | String c r => String (lower c) (toLowerCase r)
  end.

Definition eqb_nocase (a b : string) : bool :=
  String.eqb (toLowerCase a) (toLowerCase b).

Fixpoint contains (c : ascii) (s : string) : bool :=
  match s with
  | EmptyString => false
  | String d r => Ascii.eqb d c || contains c r
  end.

(** [s.split(sep)] for a one-character separator. *)
Fixpoint split (sep : ascii) (s : string) : list string :=
  match s with
  | EmptyString => [EmptyString]
  | String c r =>
      if Ascii.eqb c sep then EmptyString :: split sep r
      else match split sep r with
           | h :: t => String c h :: t
           | [] => [String c EmptyString]
           end
  end.

Fixpoint join (sep : string) (l : list string) : string :=
  match l with
  | [] => EmptyString
  | [x] => x
  | x :: r => x ++ sep ++ join sep r
  end.

Fixpoint ltrim (p : ascii -> bool) (s : string) : string :=
  match s with
  | String c r => if p c then ltrim p r else s
  | EmptyString => EmptyString
  end.

Fixpoint rtrim (p : ascii -> bool) (s : string) : string :=
  match s with
  | EmptyString => EmptyString
  | String c r =>
      match rtrim p r with
      | EmptyString => if p c then EmptyString else String c EmptyString
      | r' => String c r'
      end
  end.

(** The characters satisfying [p] removed from both ends. *)
Definition trim (p : ascii -> bool) (s : string) : string := rtrim p (ltrim p s).

Definition decimal (n : nat) : string := NilZero.string_of_uint (Nat.to_uint n).

Arguments decimal : simpl never.

End Str.

(* ------------------------------------------------------------------ *)
(** ** JavaScript values that reach the handlers *)

Module Js.

(** [req.query] holds what the query parser builds: strings, arrays and
    (with the extended parser) nested objects; an absent property reads as
    [undefined]. *)
Inductive Value : Type :=
| Undefined
| Str (s : string)
| Arr (items : list Value)
| Obj (fields : list (string * Value)).

Definition Object := list (string * Value).

(** Property read [o.k]. *)
Fixpoint get (o : Object) (k : string) : Value :=
  match o with
  | [] => Undefined
  | (k', v) :: r => if String.eqb k' k then v else get r k
  end.

(** Own property test [Object.hasOwn(o, k)]. *)
Definition has_own (o : Object) (k : string) : bool :=
  existsb (fun kv => String.eqb (fst kv) k) o.

(** [ToString], as a template literal applies it to [${v}]; [None] is a
    thrown [TypeError].  [undefined] gives the text [undefined].  An array
    joins the texts of its elements with a comma (an [undefined] element
    gives the empty text) and throws when an element does.  An object is
    converted by [toString], then [valueOf]: none of the values a query
    parser builds is callable, so an object with an own property [toString]
    falls through to [valueOf], which (own and not callable, or inherited
    and returning the object itself) yields no primitive, and the conversion
    throws; without that property the inherited [toString] gives
    [[object Object]]. *)
Fixpoint ToString (v : Value) : option string :=
  match v with
  | Undefined => Some "undefined"
  | Str s => Some s
  | Arr items =>
      let fix texts (l : list Value) : option (list string) :=
        match l with
        | [] => Some []
        | x :: r =>
            match (match x with Undefined => Some "" | _ => ToString x end),
                  texts r with
            | Some t, Some ts => Some (t :: ts)
            | _, _ => None
            end
        end in
      option_map (Str.join ",") (texts items)
  | Obj fields =>
      if has_own fields "toString" then None else Some "[object Object]"
  end.

(** *** [decodeURIComponent]

    The [Decode] operation of ECMAScript with an empty reserved set: a [%]
    must be followed by two hexadecimal digits; an octet with its high bit set
    starts a UTF-8 sequence whose remaining octets must be escaped too, and the
    sequence must be the UTF-8 form of a code point.  [None] is the
    [URIError]. *)

Definition hexval (c : ascii) : option Z :=
  if Str.in_range 48 57 c then Some (Str.code c - 48)%Z
  else if Str.in_range 65 70 c then Some (Str.code c - 55)%Z
  else if Str.in_range 97 102 c then Some (Str.code c - 87)%Z
  else None.

(** The octet written [%XY] at the head of [s], and what follows it. *)
Definition escape (s : string) : option (Z * string) :=
  match s with
  | String "%" (String x (String y r)) =>
      match hexval x, hexval y with
      | Some a, Some b => Some (16 * a + b, r)%Z
      | _, _ => None
      end
  | _ => None
  end.

(** Number of leading one bits of an octet, as far as it matters. *)
Definition leading_ones (b : Z) : nat :=
  if (b <? 128)%Z then 0
  else if (b <? 192)%Z then 1
  else if (b <? 224)%Z then 2
  else if (b <? 240)%Z then 3
  else if (b <? 248)%Z then 4
  else 5.

(** [n] continuation octets [%XY], each of the form [10xxxxxx]. *)
Fixpoint continuation (n : nat) (s : string) : option (list Z * string) :=
  match n with
  | O => Some ([], s)
  | S n' =>
      match escape s with
      | Some (b, r) =>
          if ((128 <=? b) && (b <? 192))%Z then
            match continuation n' r with
            | Some (bs, r') => Some (b :: bs, r')
            | None => None
            end
          else None
      | None => None
      end
  end.

Definition code_point (b : Z) (n : nat) (cont : list Z) : Z :=
  let lead : Z := match n with 2 => 192%Z | 3 => 224%Z | _ => 240%Z end in
  fold_left (fun v c => v * 64 + (c - 128))%Z cont (b - lead)%Z.

(** No overlong form, no surrogate, nothing above U+10FFFF. *)
Definition valid_code_point (n : nat) (v : Z) : bool :=
  match n with
  | 2 => (128 <=? v)%Z
  | 3 => ((2048 <=? v) && negb ((55296 <=? v) && (v <=? 57343)))%Z
  | _ => ((65536 <=? v) && (v <=? 1114111))%Z
  end.

Definition bytes_to_string (l : list Z) : string :=
  fold_right (fun b s => String (Str.chr b) s) EmptyString l.

Fixpoint decode (fuel : nat) (s : string) : option string :=
  match fuel with
  | O => None
  | S fuel' =>
      match s with
      | EmptyString => Some EmptyString
      | String c r =>
          if Ascii.eqb c "%" then
            match escape s with
            | None => None
            | Some (b, r1) =>
                match leading_ones b with
                | 0 => option_map (String (Str.chr b)) (decode fuel' r1)
                | 1 | 5 => None
                | n =>
                    match continuation (n - 1) r1 with
                    | None => None
                    | Some (cont, r2) =>
                        if valid_code_point n (code_point b n cont) then
                          option_map (append (bytes_to_string (b :: cont)))
                                     (decode fuel' r2)
                        else None
                    end
                end
            end
          else option_map (String c) (decode fuel' r)
      end
  end.

Definition decodeURIComponent (s : string) : option string :=
  decode (S (String.length s)) s.

Arguments decodeURIComponent : simpl never.

End Js.

(* ------------------------------------------------------------------ *)
(** ** Entity tags

    [res.send] tags every body with the application's default (weak) ETag
    function, [etag(body, {weak: true})] of the [etag] package: the byte
    length in hexadecimal, a dash, and the first 27 characters of the base64
    form of the SHA-1 digest of the body. *)

Module Etag.

Open Scope Z_scope.

Definition w32 (x : Z) : Z := Z.land x 4294967295.
Definition add32 (x y : Z) : Z := w32 (x + y).
Definition rotl (n x : Z) : Z :=
  w32 (Z.lor (Z.shiftl x n) (Z.shiftr x (32 - n))).
Definition not32 (x : Z) : Z := Z.lxor x 4294967295.

Definition bytes (s : string) : list Z := map Str.code (list_ascii_of_string s).

(** Big-endian octets of [x], [n] of them. *)
Fixpoint be (n : nat) (x : Z) : list Z :=
  match n with
  | O => []
  | S n' => be n' (Z.shiftr x 8) ++ [Z.land x 255]
  end.

Definition pad (msg : list Z) : list Z :=
  let len := Z.of_nat (List.length msg) in
  let zeros := Z.to_nat ((64 - (len + 9) mod 64) mod 64) in
  msg ++ [128] ++ repeat 0 zeros ++ be 8 (8 * len).

Fixpoint words (fuel : nat) (l : list Z) : list Z :=
  match fuel, l with
  | S f, a :: b :: c :: d :: r =>
      (16777216 * a + 65536 * b + 256 * c + d) :: words f r
  | _, _ => []
  end.

Fixpoint blocks (fuel : nat) (l : list Z) : list (list Z) :=
  match fuel with
  | O => []
  | S f => match l with
           | [] => []
           | _ => firstn 16 l :: blocks f (skipn 16 l)
           end
  end.

(** Message schedule, most recent word first. *)
Fixpoint schedule (n : nat) (rev_w : list Z) : list Z :=
  match n with
  | O => rev_w
  | S n' =>
      let w := rotl 1 (Z.lxor (Z.lxor (nth 2 rev_w 0) (nth 7 rev_w 0))
                              (Z.lxor (nth 13 rev_w 0) (nth 15 rev_w 0))) in
      schedule n' (w :: rev_w)
  end.

Definition State := (Z * Z * Z * Z * Z)%type.

Definition round (t : Z) (st : State) (w : Z) : State :=
  let '(a, b, c, d, e) := st in
  let '(f, k) :=
    if t <? 20 then (Z.lor (Z.land b c) (Z.land (not32 b) d), 1518500249)
    else if t <? 40 then (Z.lxor (Z.lxor b c) d, 1859775393)
    else if t <? 60 then
      (Z.lor (Z.lor (Z.land b c) (Z.land b d)) (Z.land c d), 2400959708)
    else (Z.lxor (Z.lxor b c) d, 3395469782) in
  let temp := add32 (add32 (add32 (add32 (rotl 5 a) f) e) k) w in
  (temp, a, rotl 30 b, c, d).

Fixpoint rounds (t : Z) (ws : list Z) (st : State) : State :=
  match ws with
  | [] => st
  | w :: r => rounds (t + 1) r (round t st w)
  end.

Definition compress (h : State) (block : list Z) : State :=
  let ws := rev (schedule 64 (rev block)) in
  let '(a, b, c, d, e) := rounds 0 ws h in
  let '(h0, h1, h2, h3, h4) := h in
  (add32 h0 a, add32 h1 b, add32 h2 c, add32 h3 d, add32 h4 e).

Definition sha1 (msg : list Z) : list Z :=
  let p := pad msg in
  let n := List.length p in
  let '(h0, h1, h2, h3, h4) :=
    fold_left compress (blocks n (words n p))
              (1732584193, 4023233417, 2562383102, 271733878, 3285377520) in
  be 4 h0 ++ be 4 h1 ++ be 4 h2 ++ be 4 h3 ++ be 4 h4.

Definition alphabet : string :=
  "ABCDEFGHIJKLMNOPQRSTUVWXYZabcdefghijklmnopqrstuvwxyz0123456789+/".

Definition b64 (i : Z) : ascii :=
  match String.get (Z.to_nat i) alphabet with
  | Some c => c
  | None => "="%char
  end.

Fixpoint base64 (fuel : nat) (l : list Z) : string :=
  match fuel with
  | O => EmptyString
  | S f =>
      match l with
      | [] => EmptyString
      | [a] =>
          String (b64 (a / 4)) (String (b64 ((a mod 4) * 16)) "==")
      | [a; b] =>
          String (b64 (a / 4))
            (String (b64 ((a mod 4) * 16 + b / 16))
               (String (b64 ((b mod 16) * 4)) "="))
      | a :: b :: c :: r =>
          String (b64 (a / 4))
            (String (b64 ((a mod 4) * 16 + b / 16))
               (String (b64 ((b mod 16) * 4 + c / 64))
                  (String (b64 (c mod 64)) (base64 f r))))
      end
  end.

Definition hexdigit (d : Z) : ascii :=
  if d <? 10 then Str.chr (48 + d) else Str.chr (87 + d).

Fixpoint hex_digits (fuel : nat) (n : Z) (acc : string) : string :=
  match fuel with
  | O => acc
  | S f =>
      let acc' := String (hexdigit (n mod 16)) acc in
      if n / 16 =? 0 then acc' else hex_digits f (n / 16) acc'
  end.

(** [n.toString(16)]. *)
Definition hex (n : nat) : string := hex_digits (S n) (Z.of_nat n) EmptyString.

Definition quote : string := String "034"%char EmptyString.

(** [entitytag] of the [etag] package. *)
Definition entitytag (body : string) : string :=
  let digest := sha1 (bytes body) in
  let hash := String.substring 0 27 (base64 (List.length digest) digest) in
  quote ++ hex (String.length body) ++ "-" ++ hash ++ quote.

Definition weak (body : string) : string := "W/" ++ entitytag body.

Arguments weak : simpl never.

Definition hexstring (l : list Z) : string :=
  fold_right (fun b s => String (hexdigit (b / 16)) (String (hexdigit (b mod 16)) s))
             EmptyString l.

End Etag.

(* ------------------------------------------------------------------ *)
(** ** Requests and responses *)

Module Http.

Inductive Method : Type := GET | HEAD | POST | PUT | PATCH | DELETE | OPTIONS.

(** The ways reading a body fails, and the status of the error each raises:
    a length that does not match Content-Length or an aborted request (400),
    a body above the 100kb limit (413), a charset or content encoding that is
    not supported (415). *)
Inductive ReadError : Type := BadLength | TooLarge | Unsupported.

Definition read_status (e : ReadError) : Z :=
  match e with
  | BadLength => 400
  | TooLarge => 413
  | Unsupported => 415
  end.

(** The message body as the body parser's reader meets it.  [NoEntity]: the
    parser does not read (the request announces no body, or its media type is
    not [application/json]).  [Unreadable e]: reading fails with [e].
    [Text s]: the decoded text of an [application/json] body. *)
Inductive Entity : Type :=
| NoEntity
| Unreadable (e : ReadError)
| Text (s : string).

(** A request as the application's middleware stack sees it: the URL already
    split by [parseurl], the query string already parsed by the query
    middleware, header names in lower case as Node delivers them.  [params]
    and [body] are the properties the router and the body parser assign on
    the way ([req.params], [req.body], the latter kept as the JSON text it was
    parsed from). *)
Record Request : Type := mkRequest {
  method : Method;
  path : string;
  query : Js.Object;
  headers : list (string * string);
  entity : Entity;
  params : Js.Object;
  body : option string
}.

Definition set_params (req : Request) (p : Js.Object) : Request :=
  mkRequest (method req) (path req) (query req) (headers req) (entity req)
            p (body req).

Definition set_body (req : Request) (b : option string) : Request :=
  mkRequest (method req) (path req) (query req) (headers req) (entity req)
            (params req) b.

(** [req.headers[name]]. *)
Fixpoint header (hs : list (string * string)) (name : string) : option string :=
  match hs with
  | [] => None
  | (k, v) :: r => if String.eqb k name then Some v else header r name
  end.

(** A response is either written by [res.send] (status, the headers it sets,
    body) or by the final handler, whose page depends on the environment and
    is identified by its status alone. *)
Inductive Response : Type :=
| Sent (status : Z) (headers : list (string * string)) (body : string)
| Final (status : Z).

Definition status (r : Response) : Z :=
  match r with Sent s _ _ => s | Final s => s end.

Definition sent_body (r : Response) : option string :=
  match r with Sent _ _ b => Some b | Final _ => None end.

Definition response_header (r : Response) (name : string) : option string :=
  match r with Sent _ hs _ => header hs name | Final _ => None end.

(** What a middleware or handler does with a request: it ends the response,
    calls [next()], or fails, by [next(err)] or by throwing [err], which the
    layer catches and hands to [next].  [status] is [err.status] when the
    error has a numeric one ([None] for a plain exception). *)
Inductive Outcome : Type :=
| Responded (r : Response)
| Next (req : Request)
| Failed (status : option Z).

End Http.

Import Http.

(* ------------------------------------------------------------------ *)
(** ** [req.fresh] and [res.send] *)

Module Fresh.

(** JavaScript's [\s] on a header value (Latin-1). *)
Definition is_ws (c : ascii) : bool :=
  Str.in_range 9 13 c || Ascii.eqb c " " || Ascii.eqb c (Str.chr 160).

Definition is_sp (c : ascii) : bool := Ascii.eqb c " ".

(** [/(?:^|,)\s*?no-cache\s*?(?:,|$)/.test(v)] *)
Definition no_cache (v : string) : bool :=
  existsb (fun piece => String.eqb (Str.trim is_ws piece) "no-cache")
          (Str.split "," v).

(** [parseTokenList]: the comma separated items, spaces around them removed. *)
Definition parseTokenList (v : string) : list string :=
  map (Str.trim is_sp) (Str.split "," v).

Definition truthy (o : option string) : bool :=
  match o with
  | Some (String _ _) => true
  | _ => false
  end.

(** [fresh(reqHeaders, { etag: etag })] of the [fresh] package (0.5), for a
    response that carries an ETag and no Last-Modified. *)
Definition fresh (hs : list (string * string)) (etag : string) : bool :=
  let modifiedSince := header hs "if-modified-since" in
  let noneMatch := header hs "if-none-match" in
  if negb (truthy modifiedSince) && negb (truthy noneMatch) then false
  else if match header hs "cache-control" with
          | Some cc => truthy (Some cc) && no_cache cc
          | None => false
          end then false
  else if match noneMatch with
          | Some nm =>
              truthy noneMatch && negb (String.eqb nm "*") &&
              negb (existsb (fun m => String.eqb m etag
                                      || String.eqb m ("W/" ++ etag)
                                      || String.eqb ("W/" ++ m) etag)
                            (parseTokenList nm))
          | None => false
          end then false
  else if truthy modifiedSince then false
  else true.

(** The request carries no validator at all. *)
Definition unconditional (req : Request) : bool :=
  negb (truthy (header (headers req) "if-modified-since"))
  && negb (truthy (header (headers req) "if-none-match")).

(** [req.fresh] while the status is 200. *)
Definition req_fresh (req : Request) (etag : string) : bool :=
  match method req with
  | GET | HEAD => fresh (headers req) etag
  | _ => false
  end.

End Fresh.

Module Res.

Definition html : string := "text/html; charset=utf-8".

(** [res.send(chunk)] for a string [chunk], status 200 and no Content-Type or
    ETag set before ([preset] is what [res.set] put there): the type defaults
    to html, Content-Length and a weak ETag are computed from the body, a
    fresh request gets 304 without the entity headers and without body, and a
    HEAD request gets the headers only. *)
Definition send (req : Request) (preset : list (string * string))
           (chunk : string) : Response :=
  let etag := Etag.weak chunk in
  if Fresh.req_fresh req etag then
    Sent 304 (preset ++ [("ETag", etag)]) ""
  else
    Sent 200
         (preset ++ [("Content-Type", html);
                     ("Content-Length", Str.decimal (String.length chunk));
                     ("ETag", etag)])
         (match method req with HEAD => "" | _ => chunk end).

End Res.

(* ------------------------------------------------------------------ *)
(** ** [JSON.parse], as far as acceptance goes *)

Module Json.

Definition dquote : ascii := "034"%char.

Definition is_ws (c : ascii) : bool :=
  Ascii.eqb c " " || Ascii.eqb c "009" || Ascii.eqb c "010" || Ascii.eqb c "013".

Definition is_digit (c : ascii) : bool := Str.in_range 48 57 c.

Fixpoint skip_ws (s : string) : string :=
  match s with
  | String c r => if is_ws c then skip_ws r else s
  | EmptyString => EmptyString
  end.

Fixpoint digits (s : string) : string :=
  match s with
  | String c r => if is_digit c then digits r else s
  | EmptyString => EmptyString
  end.

(** One or more digits. *)
Definition digits1 (s : string) : option string :=
  match s with
  | String c r => if is_digit c then Some (digits r) else None
  | EmptyString => None
  end.

Definition hex4 (s : string) : option string :=
  match s with
  | String a (String b (String c (String d r))) =>
      match Js.hexval a, Js.hexval b, Js.hexval c, Js.hexval d with
      | Some _, Some _, Some _, Some _ => Some r
      | _, _, _, _ => None
      end
  | _ => None
  end.

(** The characters of a string literal after its opening quote; the rest
    after the closing quote. *)
Fixpoint string_tail (fuel : nat) (s : string) : option string :=
  match fuel with
  | O => None
  | S f =>
      match s with
      | EmptyString => None
      | String c r =>
          if Ascii.eqb c dquote then Some r
          else if Ascii.eqb c "\" then
            match r with
            | String e r' =>
                if Ascii.eqb e "u" then
                  match hex4 r' with
                  | Some r'' => string_tail f r''
                  | None => None
                  end
                else if Str.contains e (String dquote "\/bfnrt") then string_tail f r'
                else None
            | EmptyString => None
            end
          else if (Str.code c <? 32)%Z then None
          else string_tail f r
      end
  end.

Definition number (s : string) : option string :=
  let s1 := match s with String "-" r => r | _ => s end in
  let int := match s1 with
             | String "0" r => Some r
             | _ => digits1 s1
             end in
  match int with
  | None => None
  | Some s2 =>
      let frac := match s2 with
                  | String "." r => digits1 r
                  | _ => Some s2
                  end in
      match frac with
      | None => None
      | Some s3 =>
          match s3 with
          | String e r =>
              if Ascii.eqb e "e" || Ascii.eqb e "E" then
                match r with
                | String sg r' =>
                    if Ascii.eqb sg "+" || Ascii.eqb sg "-" then digits1 r'
                    else digits1 r
                | EmptyString => None
                end
              else Some s3
          | EmptyString => Some s3
          end
      end
  end.

Definition literal (word s : string) : option string :=
  if String.prefix word s
  then Some (String.substring (String.length word)
                              (String.length s - String.length word) s)
  else None.

(** [value f s]: [s] starts with a JSON value; the result is what follows
    it.  [members] and [elements] read the inside of an object and of an
    array after the opening bracket and white space. *)
Fixpoint value (fuel : nat) (s : string) : option string :=
  match fuel with
  | O => None
  | S f =>
      match s with
      | String c r =>
          if Ascii.eqb c "{" then
            match skip_ws r with
            | String "}" r' => Some r'
            | r' => members f r'
            end
          else if Ascii.eqb c "[" then
            match skip_ws r with
            | String "]" r' => Some r'
            | r' => elements f r'
            end
          else if Ascii.eqb c dquote then string_tail (String.length r) r
          else if Ascii.eqb c "t" then literal "true" s
          else if Ascii.eqb c "f" then literal "false" s
          else if Ascii.eqb c "n" then literal "null" s
          else number s
      | EmptyString => None
      end
  end
with members (fuel : nat) (s : string) : option string :=
  match fuel with
  | O => None
  | S f =>
      match s with
      | String c r =>
          if Ascii.eqb c dquote then
            match string_tail (String.length r) r with
            | Some r1 =>
                match skip_ws r1 with
                | String ":" r2 =>
                    match value f (skip_ws r2) with
                    | Some r3 =>
                        match skip_ws r3 with
                        | String "," r4 => members f (skip_ws r4)
                        | String "}" r4 => Some r4
                        | _ => None
                        end
                    | None => None
                    end
                | _ => None
                end
            | None => None
            end
          else None
      | EmptyString => None
      end
  end
with elements (fuel : nat) (s : string) : option string :=
  match fuel with
  | O => None
  | S f =>
      match value f s with
      | Some r1 =>
          match skip_ws r1 with
          | String "," r2 => elements f (skip_ws r2)
          | String "]" r2 => Some r2
          | _ => None
          end
      | None => None
      end
  end.

(** [JSON.parse(text)] returns (rather than throwing a SyntaxError). *)
Definition parses (text : string) : bool :=
  match value (S (String.length text)) (skip_ws text) with
  | Some r => match skip_ws r with EmptyString => true | _ => false end
  | None => false
  end.

End Json.

(* ------------------------------------------------------------------ *)
(** ** Express: body parser, route matching, routers *)

Module Express.

(** *** [express.json()] with its defaults (strict mode) *)

(** [firstchar]: the first character that is not JSON white space. *)
Definition firstchar (text : string) : option ascii :=
  match Json.skip_ws text with
  | String c _ => Some c
  | EmptyString => None
  end.

(** [parse(body)] of the JSON body parser: an empty body is [{}]; in strict
    mode the first character must open an object or an array; then
    [JSON.parse].  The result is the value bound to [req.body] (as text),
    [None] a syntax error. *)
Definition parse (text : string) : option string :=
  match text with
  | EmptyString => Some "{}"
  | _ =>
      match firstchar text with
      | Some c =>
          if Ascii.eqb c "{" || Ascii.eqb c "[" then
            if Json.parses text then Some text else None
          else None
      | None => None
      end
  end.

(** The middleware: nothing to read, [next()]; a read error or a syntax
    error (status 400), [next(err)]; otherwise [req.body] is assigned and
    [next()] called.  Neither the method nor any header other than those that
    describe the body takes part: a GET with a JSON body is parsed like any
    other request. *)
Definition json (req : Request) : Outcome :=
  match entity req with
  | NoEntity => Next req
  | Unreadable e => Failed (Some (read_status e))
  | Text text =>
      match parse text with
      | Some v => Next (set_body req (Some v))
      | None => Failed (Some 400%Z)
      end
  end.

(** *** Route paths

    A route path made of literal segments and [:name] segments compiles
    (non-strict, case-insensitive, anchored at both ends) to a regular
    expression that asks for the literal segments up to ASCII case, a
    non-empty run of characters other than [/] for each parameter, and
    allows one trailing [/]:
    [/users/:id/payment] is [^\/users\/(?:([^\/]+?))\/payment\/?$] with
    flag [i], and [/] is [^\/?$]. *)

Inductive Segment : Type :=
| Lit (s : string)
| Param (name : string).

(** What [[^\/]+?] accepts: a non-empty text without [/]. *)
Definition is_segment (s : string) : bool :=
  negb (String.eqb s "") && negb (Str.contains "/" s).

Definition segment (piece : string) : Segment :=
  match piece with
  | String ":" name => Param name
  | _ => Lit piece
  end.

(** One trailing empty piece is the optional final slash. *)
Fixpoint drop_last_empty (pieces : list string) : list string :=
  match pieces with
  | [] => []
  | [EmptyString] => []
  | p :: r => p :: drop_last_empty r
  end.

Definition compile (route_path : string) : option (list Segment) :=
  match Str.split "/" route_path with
  | EmptyString :: pieces => Some (map segment (drop_last_empty pieces))
  | _ => None
  end.

(** Captures of the regular expression, in order, still encoded. *)
Fixpoint captures (segs : list Segment) (pieces : list string)
  : option (list (string * string)) :=
  match segs, pieces with
  | [], [] => Some []
  | Lit s :: segs', p :: pieces' =>
      if Str.eqb_nocase s p then captures segs' pieces' else None
  | Param name :: segs', p :: pieces' =>
      match p with
      | EmptyString => None
      | _ => option_map (cons (name, p)) (captures segs' pieces')
      end
  | _, _ => None
  end.

Definition exec (segs : list Segment) (pathname : string)
  : option (list (string * string)) :=
  match Str.split "/" pathname with
  | EmptyString :: pieces => captures segs (drop_last_empty pieces)
  | _ => None
  end.

Inductive Match : Type :=
| NoMatch
| Matched (params : Js.Object)
| DecodeError.

(** [decode_param] on every capture; the first [URIError] wins. *)
Fixpoint decode_params (caps : list (string * string)) : option Js.Object :=
  match caps with
  | [] => Some []
  | (name, v) :: r =>
      match Js.decodeURIComponent v with
      | None => None
      | Some d => option_map (cons (name, Js.Str d)) (decode_params r)
      end
  end.

(** [Layer.prototype.match] for a route layer: the error of a parameter that
    does not decode has status 400. *)
Definition match_path (route_path pathname : string) : Match :=
  match compile route_path with
  | None => NoMatch
  | Some segs =>
      match exec segs pathname with
      | None => NoMatch
      | Some caps =>
          match decode_params caps with
          | Some ps => Matched ps
          | None => DecodeError
          end
      end
  end.

(** *** The final handler *)

(** The status the final handler answers an error with: [err.status] when it
    is a number from 400 to 599, and 500 otherwise (no middleware of the
    stack sets [res.statusCode] before it fails). *)
Definition error_status (status : option Z) : Z :=
  match status with
  | Some s => if ((400 <=? s) && (s <? 600))%Z then s else 500%Z
  | None => 500%Z
  end.

(** *** Routers *)

Section Router.

Variable State : Type.

(** A middleware or handler runs on a request in the state of the process
    (the variables its closures share) and may change that state. *)
Definition Middleware : Type := Request -> State -> Outcome * State.

(** A handler that touches no shared variable. *)
Definition stateless (f : Request -> Outcome) : Middleware :=
  fun req st => (f req, st).

(** The layers of a router: [use(fn)] (mounted at [/], so it sees every
    request) and [get(path, handler)]. *)
Inductive Layer : Type :=
| Use (fn : Middleware)
| Get (route_path : string) (handler : Middleware).

(** A route declared with [get] also serves HEAD. *)
Definition handles_method (m : Method) : bool :=
  match m with
  | GET | HEAD => true
  | _ => false
  end.

Definition append_methods (options : list string) : list string :=
  fold_left (fun acc m => if existsb (String.eqb m) acc then acc else acc ++ [m])
            ["GET"; "HEAD"] options.

(** [sendOptionsResponse]. *)
Definition send_options (req : Request) (options : list string) : Response :=
  let allow := Str.join "," options in
  Res.send req [("Allow", allow)] allow.

(** [router.handle]: [next] walks the stack.  [err] is the pending error:
    while there is one, plain middleware (none of it takes four arguments)
    and routes are skipped.  A route whose path matches but whose parameter
    does not decode raises the error; a matching route that does not serve
    the method is skipped, after recording its methods for an OPTIONS
    request.  At the end of the stack an OPTIONS request with recorded
    methods and no error is answered; otherwise control leaves the router
    with the error, if any. *)
Fixpoint handle (stack : list Layer) (err : option (option Z))
         (options : list string) (req : Request) (st : State)
  : Outcome * State :=
  match stack with
  | [] =>
      match err, method req, options with
      | Some status, _, _ => (Failed status, st)
      | None, OPTIONS, _ :: _ => (Responded (send_options req options), st)
      | None, _, _ => (Next req, st)
      end
  | Use fn :: rest =>
      match err with
      | Some _ => handle rest err options req st
      | None =>
          match fn req st with
          | (Responded r, st') => (Responded r, st')
          | (Next req', st') => handle rest None options req' st'
          | (Failed status, st') => handle rest (Some status) options req st'
          end
      end
  | Get route_path handler :: rest =>
      match match_path route_path (path req) with
      | NoMatch => handle rest err options req st
      | DecodeError =>
          handle rest
                 (match err with Some e => Some e | None => Some (Some 400%Z) end)
                 options req st
      | Matched ps =>
          match err with
          | Some _ => handle rest err options req st
          | None =>
              if handles_method (method req) then
                match handler (set_params req ps) st with
                | (Responded r, st') => (Responded r, st')
                | (Next req', st') => handle rest None options req' st'
                | (Failed status, st') =>
                    handle rest (Some status) options req st'
                end
              else
                handle rest None
                       (match method req with
                        | OPTIONS => append_methods options
                        | _ => options
                        end)
                       req st
          end
      end
  end.

(** [express.Router()] with the given layers, used as a middleware. *)
Definition Router (stack : list Layer) : Middleware :=
  fun req st => handle stack None [] req st.

(** The application: its base router, and the final handler for whatever
    leaves it: 404 when nothing answered, the status of the error when
    something failed. *)
Definition application (stack : list Layer) (req : Request) (st : State)
  : Response * State :=
  match handle stack None [] req st with
  | (Responded r, st') => (r, st')
  | (Next _, st') => (Final 404, st')
  | (Failed status, st') => (Final (error_status status), st')
  end.

End Router.

Arguments stateless {State} f req st.
Arguments Use {State} fn.
Arguments Get {State} route_path handler.
Arguments handle {State} stack err options req st.
Arguments Router {State} stack req st.
Arguments application {State} stack req st.

End Express.

Import Express.

(* ------------------------------------------------------------------ *)
(** ** [payment.js] *)

Module Payment.

(** The template literal [`User ID: ${userId}, Filter: ${filter}`]: the two
    values are converted in turn; [None] when a conversion throws. *)
Definition template (userId filter : Js.Value) : option string :=
  match Js.ToString userId with
  | None => None
  | Some id_text =>
      match Js.ToString filter with
      | None => None
      | Some filter_text =>
          Some ("User ID: " ++ id_text ++ ", Filter: " ++ filter_text)%string
      end
  end.

(** [(req, res) => { ... }] *)
Definition handler (req : Request) : Outcome :=
  let userId := Js.get (params req) "id" in
  let filter := Js.get (query req) "filter" in
  match template userId filter with
  | Some text => Responded (Res.send req [] text)
  | None => Failed None
  end.

(** [const router = express.Router(); router.get('/users/:id/payment', ...)] *)
Definition router (State : Type) : Middleware State :=
  Router [Get "/users/:id/payment" (stateless handler)].

End Payment.

(* ------------------------------------------------------------------ *)
(** ** [app.js]

    [app.listen(3000, ...)] starts the listener and logs one line; it takes
    no part in how a request is answered. *)

Module App.

Section App.

Variable State : Type.

(** [require("./User")]: the module is not among the sources; it is some
    middleware over some process state. *)
Variable userRoute : Middleware State.

Definition paymentRoute : Middleware State := Payment.router State.

(** [(req, res) => { res.send("Hello World"); }] *)
Definition root (req : Request) : Outcome :=
  Responded (Res.send req [] "Hello World").

Definition stack : list (Layer State) :=
  [ Use (stateless Express.json);
    Use userRoute;
    Use paymentRoute;
    Get "/" (stateless root) ].

Definition app (req : Request) (st : State) : Response * State :=
  application stack req st.

End App.

(** A User module that declares no route: [express.Router()] as it is. *)
Definition noUserRoutes : Middleware unit := Router [].

Arguments app {State} userRoute req st.
Arguments stack {State} userRoute.

End App.

(** A request line alone: no headers, no body. *)
Definition bare (m : Method) (pathname : string) (q : Js.Object) : Request :=
  mkRequest m pathname q [] NoEntity [] None.

(* ------------------------------------------------------------------ *)
(** ** Predicates and requests of the statements *)

(** The User router hands the request on, as it received it. *)
Definition passes (State : Type) (userRoute : Middleware State)
           (req : Request) (st st1 : State) : Prop :=
  userRoute req st = (Next req, st1).

Arguments passes {State} userRoute req st st1.

(** The request gets past the body parser and the User router. *)
Definition reaches_routes (State : Type) (userRoute : Middleware State)
           (req : Request) (st : State) : Prop :=
  exists req1 st1, Express.json req = Next req1 /\ passes userRoute req1 st st1.

Arguments reaches_routes {State} userRoute req st.

(** A request line for [pathname] with method GET, without a JSON body to
    read and without cache validators. *)
Definition plain_get (req : Request) (pathname : string) : Prop :=
  method req = GET /\ path req = pathname /\
  entity req = NoEntity /\ Fresh.unconditional req = true.

(** A GET request whose path the payment route matches, binding [ps]. *)
Definition payment_get (req : Request) (ps : Js.Object) : Prop :=
  method req = GET /\
  match_path "/users/:id/payment" (path req) = Matched ps.

(** Scenario requests of the specification. *)
Definition get_42_recent : Request :=
  bare GET "/users/42/payment" [("filter", Js.Str "recent")].
Definition get_42 : Request := bare GET "/users/42/payment" [].

(** A conditional request for [/]: the validator is the entity tag Express
    gave [Hello World] the time before. *)
Definition revalidate_root : Request :=
  mkRequest GET "/" []
            [("if-none-match",
              "W/" ++ Etag.quote ++ "b-Ck1VqNd45QIvq3AZd8XYQLvEhtA" ++ Etag.quote)%string]
            NoEntity [] None.

(** A GET for [/] that carries the JSON text [{]. *)
Definition root_with_broken_json : Request :=
  mkRequest GET "/" []
            [("content-type", "application/json"); ("content-length", "1")]
            (Text "{") [] None.

(** A GET for [/] with a query, headers, a validator that matches nothing
    and a JSON body. *)
Definition get_root_with_headers : Request :=
  mkRequest GET "/" [("page", Js.Str "2")]
            [("host", "localhost:3000"); ("accept", "application/json");
             ("if-none-match", "W/" ++ Etag.quote ++ "stale" ++ Etag.quote)%string;
             ("content-type", "application/json"); ("content-length", "2")]
            (Text "{}") [] None.

(** A POST to a path no route knows, carrying the JSON text [{]. *)
Definition post_nowhere_broken_json : Request :=
  mkRequest POST "/nowhere" []
            [("content-type", "application/json"); ("content-length", "1")]
            (Text "{") [] None.

(** A request no route is declared for. *)
Definition delete_unknown : Request :=
  mkRequest DELETE "/users/42" []
            [("accept", "*/*");
             ("content-type", "application/json"); ("content-length", "6")]
            (Text "[1, 2]") [] None.

(** An id written with percent-escapes. *)
Definition get_escaped_id : Request :=
  mkRequest GET "/users/a%2Fb%20c/payment" [("filter", Js.Str "recent")]
            [("accept", "*/*")] NoEntity [] None.

(** Two more requests for [/users/42/payment?filter=recent]: [get_42_recent]
    with the JSON body [{], and [get_42_recent] with a validator, the entity
    tag of the echo. *)
Definition get_42_recent_broken_json : Request :=
  mkRequest GET "/users/42/payment" [("filter", Js.Str "recent")]
            [("content-type", "application/json"); ("content-length", "1")]
            (Text "{") [] None.

Definition get_42_recent_revalidate : Request :=
  mkRequest GET "/users/42/payment" [("filter", Js.Str "recent")]
            [("if-none-match", Etag.weak "User ID: 42, Filter: recent")]
            NoEntity [] None.

(** The same id and filter again, in another spelling of the path and with
    another query parameter, other headers and a JSON body. *)
Definition get_42_recent_dressed : Request :=
  mkRequest GET "/USERS/%34%32/payment/"
            [("page", Js.Str "2"); ("filter", Js.Str "recent")]
            [("user-agent", "curl/8.0"); ("accept", "text/plain");
             ("content-type", "application/json"); ("content-length", "9")]
            (Text "[1, 2, 3]") [] None.

(** A JSON document, for the parser. *)
Definition json_sample : string :=
  let q := String Json.dquote EmptyString in
  "{ " ++ q ++ "name" ++ q ++ ": " ++ q ++ "A\u00e9\n" ++ q ++ ", "
       ++ q ++ "tags" ++ q ++ ": [1, -2.5e+3, true, null, {}, []] }".

(* ------------------------------------------------------------------ *)
(** ** Variations of a request *)

(** The same request under another method. *)
Definition with_method (m : Method) (req : Request) : Request :=
  mkRequest m (path req) (query req) (headers req) (entity req)
            (params req) (body req).

(** The same request with one more header, in front of the others. *)
Definition with_header (name value : string) (req : Request) : Request :=
  mkRequest (method req) (path req) (query req) ((name, value) :: headers req)
            (entity req) (params req) (body req).

(** The headers that describe a message body. *)
Definition describes_body (name : string) : bool :=
  String.eqb name "content-type" || String.eqb name "content-length"
  || String.eqb name "content-encoding" || String.eqb name "transfer-encoding".

(** The same request sent without a message body: no entity, and none of the
    headers that describe one. *)
Definition without_body (req : Request) : Request :=
  mkRequest (method req) (path req) (query req)
            (filter (fun h => negb (describes_body (fst h))) (headers req))
            NoEntity (params req) (body req).

(** The same request carrying [text] as an [application/json] body. *)
Definition with_json (text : string) (req : Request) : Request :=
  mkRequest (method req) (path req) (query req)
            (("content-type", "application/json")
               :: ("content-length", Str.decimal (String.length text))
               :: headers req)
            (Text text) (params req) (body req).

(** A GET for the payment of [id], with the given query and nothing else. *)
Definition payment_request (id : string) (q : Js.Object) : Request :=
  bare GET ("/users/" ++ id ++ "/payment") q.

(** An entity tag no response of the application carries. *)
Definition stale_tag : string := "W/" ++ Etag.quote ++ "stale" ++ Etag.quote.

(** The same request with the JSON body [{}] and a validator that matches
    nothing. *)
Definition dressed (req : Request) : Request :=
  with_header "if-none-match" stale_tag (with_json "{}" req).

(** [?filter=recent], no query, [?filter=] and [?filter[toString]=x]. *)
Definition filter_recent : Js.Object := [("filter", Js.Str "recent")].
Definition no_query : Js.Object := [].
Definition filter_empty : Js.Object := [("filter", Js.Str "")].
Definition filter_shadowing_toString : Js.Object :=
  [("filter", Js.Obj [("toString", Js.Str "x")])].

(** The methods no route of the application is declared for, OPTIONS (which
    the routers answer themselves) apart. *)
Definition unserved (m : Method) : bool :=
  match m with
  | POST | PUT | PATCH | DELETE => true
  | GET | HEAD | OPTIONS => false
  end.

(** The optional final slash of a path. *)
Definition slash (trailing : bool) : string := if trailing then "/" else "".

(** What the root route does with a request that got as far as it. *)
Definition root_answer (req : Request) : Response :=
  match match_path "/" (path req) with
  | Matched ps0 =>
      match method req with
      | GET | HEAD => Res.send (set_params req ps0) [] "Hello World"
      | OPTIONS => send_options req ["GET"; "HEAD"]
      | _ => Final 404
      end
  | _ => Final 404
  end.

(** Requests and a User router for the further properties. *)

(** A DELETE for an id with a truncated escape. *)
Definition delete_bad_escape : Request :=
  bare DELETE "/users/100%/payment" [].

(** A GET for [/] whose JSON body is the number 1. *)
Definition root_with_scalar_json : Request :=
  mkRequest GET "/" []
            [("content-type", "application/json"); ("content-length", "2")]
            (Text " 1") [] None.

(** A User router that answers every GET itself and throws on the rest. *)
Definition greedyUserRoutes : Middleware nat :=
  fun req served =>
    match method req with
    | GET => (Responded (Sent 200 [] "users"), S served)
    | _ => (Failed None, served)
    end.

(** An upload the body reader refuses for its size. *)
Definition post_too_large : Request :=
  mkRequest POST "/users/42/payment" []
            [("content-type", "application/json"); ("content-length", "200000")]
            (Unreadable TooLarge) [] None.

(** [GET /users/42/payment?filter=recent&filter=paid&filter=] *)
Definition get_42_three_filters : Request :=
  bare GET "/users/42/payment"
       [("filter", Js.Arr [Js.Str "recent"; Js.Str "paid"; Js.Str ""])].

(** [GET /users/inv-2024_07.a/payment?filter[from]=1], the filter an object. *)
Definition get_plain_id_object_filter : Request :=
  bare GET "/users/inv-2024_07.a/payment"
       [("filter", Js.Obj [("from", Js.Str "1")])].

(** A browser reload of [/]: the validator matches, [no-cache] wins. *)
Definition reload_root : Request :=
  mkRequest GET "/" []
            [("cache-control", "max-age=0, no-cache");
             ("if-none-match", Etag.weak "Hello World")]
            NoEntity [] None.

(* ------------------------------------------------------------------ *)
(** * The model on known values *)

Example decode_plain : Js.decodeURIComponent "42" = Some "42".
Proof. reflexivity. Qed.
Example decode_escape : Js.decodeURIComponent "a%2Fb%20c" = Some "a/b c".
Proof. reflexivity. Qed.
Example decode_utf8 :
  Js.decodeURIComponent "%E2%82%AC" = Some (Js.bytes_to_string [226; 130; 172]%Z).
Proof. reflexivity. Qed.
Example decode_bare_percent : Js.decodeURIComponent "%" = None.
Proof. reflexivity. Qed.
Example decode_bad_hex : Js.decodeURIComponent "100%zz" = None.
Proof. reflexivity. Qed.
Example decode_overlong : Js.decodeURIComponent "%C0%80" = None.
Proof. reflexivity. Qed.
Example decode_lone_continuation : Js.decodeURIComponent "%80" = None.
Proof. reflexivity. Qed.
Example tostring_array :
  Js.ToString (Js.Arr [Js.Str "a"; Js.Undefined; Js.Str "b"]) = Some "a,,b".
Proof. reflexivity. Qed.
Example tostring_object :
  Js.ToString (Js.Obj [("from", Js.Str "1")]) = Some "[object Object]".
Proof. reflexivity. Qed.
Example tostring_shadowed :
  Js.ToString (Js.Obj [("toString", Js.Str "x")]) = None.
Proof. reflexivity. Qed.
Example tostring_shadowed_element :
  Js.ToString (Js.Arr [Js.Str "a"; Js.Obj [("toString", Js.Str "x")]]) = None.
Proof. reflexivity. Qed.
Example error_status_in_range : error_status (Some 413%Z) = 413%Z.
Proof. reflexivity. Qed.
Example error_status_redirect : error_status (Some 302%Z) = 500%Z.
Proof. reflexivity. Qed.
Example error_status_exception : error_status None = 500%Z.
Proof. reflexivity. Qed.

Example sha1_abc :
  Etag.hexstring (Etag.sha1 (Etag.bytes "abc"))
  = "a9993e364706816aba3e25717850c26c9cd0d89d".
Proof. vm_compute. reflexivity. Qed.
Example sha1_empty :
  Etag.hexstring (Etag.sha1 [])
  = "da39a3ee5e6b4b0d3255bfef95601890afd80709".
Proof. vm_compute. reflexivity. Qed.
Example sha1_two_blocks :
  Etag.hexstring
    (Etag.sha1 (Etag.bytes "abcdbcdecdefdefgefghfghighijhijkijkljklmklmnlmnomnopnopq"))
  = "84983e441c3bd26ebaae4aa1f95129e5e54670f1".
Proof. vm_compute. reflexivity. Qed.
Example etag_empty :
  Etag.entitytag "" = (Etag.quote ++ "0-2jmj7l5rSw0yVb/vlWAYkK/YBwk" ++ Etag.quote)%string.
Proof. vm_compute. reflexivity. Qed.
Example etag_hello_world :
  Etag.weak "Hello World"
  = ("W/" ++ Etag.quote ++ "b-Ck1VqNd45QIvq3AZd8XYQLvEhtA" ++ Etag.quote)%string.
Proof. vm_compute. reflexivity. Qed.

Example json_accepts_document : Json.parses json_sample = true.
Proof. vm_compute. reflexivity. Qed.
Example json_rejects_open_brace : Json.parses "{" = false.
Proof. vm_compute. reflexivity. Qed.
Example json_rejects_trailing_comma : Json.parses "[1,]" = false.
Proof. vm_compute. reflexivity. Qed.
Example json_rejects_leading_zero : Json.parses "[01]" = false.
Proof. vm_compute. reflexivity. Qed.
Example json_rejects_bare_key : Json.parses "{a:1}" = false.
Proof. vm_compute. reflexivity. Qed.

(* ------------------------------------------------------------------ *)
(** * Properties *)

(** ** Strings and decoding *)

Lemma split_without_separator (sep : ascii) (s : string) :
  Str.contains sep s = false -> Str.split sep s = [s].
Proof.
  induction s as [|c r IH]; simpl; intros H; [reflexivity|].
  apply orb_false_iff in H. destruct H as [Hc Hr].
  rewrite Hc, (IH Hr). reflexivity.
Qed.

Lemma split_at_separator (sep : ascii) (a b : string) :
  Str.contains sep a = false ->
  Str.split sep (a ++ String sep b) = a :: Str.split sep b.
Proof.
  induction a as [|c r IH]; simpl; intros H.
  - rewrite Ascii.eqb_refl. reflexivity.
  - apply orb_false_iff in H. destruct H as [Hc Hr].
    rewrite Hc, (IH Hr). reflexivity.
Qed.

Lemma decode_unescaped (s : string) :
  forall fuel, String.length s < fuel ->
  Str.contains "%" s = false -> Js.decode fuel s = Some s.
Proof.
  induction s as [|c r IH]; intros fuel Hlen Hc.
  - destruct fuel; [inversion Hlen | reflexivity].
  - destruct fuel as [|fuel]; [inversion Hlen|].
    simpl in Hc. apply orb_false_iff in Hc. destruct Hc as [Hc Hr].
    simpl. rewrite Hc.
    rewrite IH; [reflexivity | simpl in Hlen; lia | exact Hr].
Qed.

(** A text without [%] decodes to itself. *)
Lemma decodeURIComponent_unescaped (s : string) :
  Str.contains "%" s = false -> Js.decodeURIComponent s = Some s.
Proof.
  intros H. unfold Js.decodeURIComponent. apply decode_unescaped; [lia | exact H].
Qed.

Lemma is_segment_inv (s : string) :
  is_segment s = true ->
  (exists c r, s = String c r) /\ Str.contains "/" s = false.
Proof.
  unfold is_segment. intros H. apply andb_true_iff in H. destruct H as [Hn Hs].
  split.
  - destruct s as [|c r]; [discriminate Hn | eauto].
  - apply negb_true_iff in Hs. exact Hs.
Qed.

(** ** Route matching *)

(** The payment route matches [/users/<segment>/payment] and binds [id] to
    the decoded segment. *)
Lemma payment_path_matches (seg d : string) :
  is_segment seg = true ->
  Js.decodeURIComponent seg = Some d ->
  match_path "/users/:id/payment" ("/users/" ++ seg ++ "/payment")
  = Matched [("id", Js.Str d)].
Proof.
  intros Hseg Hdec. destruct (is_segment_inv _ Hseg) as [[c [r ->]] Hslash].
  unfold match_path, exec.
  change (compile "/users/:id/payment")
    with (Some [Lit "users"; Param "id"; Lit "payment"]).
  change (Str.split "/" ("/users/" ++ String c r ++ "/payment"))
    with (EmptyString :: "users"
            :: Str.split "/" (String c r ++ String "/" "payment")).
  rewrite (split_at_separator "/" (String c r) "payment" Hslash).
  cbn -[Js.decodeURIComponent]. rewrite Hdec. reflexivity.
Qed.

(** ** [res.send] *)

Lemma unconditional_never_fresh (req : Request) (etag : string) :
  Fresh.unconditional req = true -> Fresh.req_fresh req etag = false.
Proof.
  unfold Fresh.unconditional, Fresh.req_fresh, Fresh.fresh. intros H.
  rewrite H. destruct (method req); reflexivity.
Qed.

Lemma send_stale (req : Request) (preset : list (string * string)) (chunk : string) :
  Fresh.req_fresh req (Etag.weak chunk) = false ->
  Res.send req preset chunk
  = Sent 200
         (preset ++ [("Content-Type", Res.html);
                     ("Content-Length", Str.decimal (String.length chunk));
                     ("ETag", Etag.weak chunk)])
         (match method req with HEAD => "" | _ => chunk end).
Proof. intros H. unfold Res.send. rewrite H. reflexivity. Qed.

Lemma send_fresh (req : Request) (preset : list (string * string)) (chunk : string) :
  Fresh.req_fresh req (Etag.weak chunk) = true ->
  Res.send req preset chunk = Sent 304 (preset ++ [("ETag", Etag.weak chunk)]) "".
Proof. intros H. unfold Res.send. rewrite H. reflexivity. Qed.

(** ** The payment router and the application stack *)

(** What the payment router does, by the way the path matches its route. *)
Lemma payment_router_cases (State : Type) (req : Request) (st : State) :
  Payment.router State req st =
  match match_path "/users/:id/payment" (path req) with
  | NoMatch => (Next req, st)
  | DecodeError => (Failed (Some 400%Z), st)
  | Matched ps =>
      if handles_method (method req)
      then (Payment.handler (set_params req ps), st)
      else match method req with
           | OPTIONS => (Responded (send_options req ["GET"; "HEAD"]), st)
           | _ => (Next req, st)
           end
  end.
Proof.
  unfold Payment.router, Router. cbn [handle].
  destruct (match_path "/users/:id/payment" (path req)) as [|ps|]; cbn [handle];
    [destruct (method req); reflexivity | | destruct (method req); reflexivity].
  unfold stateless, Payment.handler.
  destruct (Payment.template (Js.get (params (set_params req ps)) "id")
                             (Js.get (query (set_params req ps)) "filter"));
    destruct (method req); reflexivity.
Qed.

(** The handler sends the template, or throws when the template does. *)
Lemma payment_handler_cases (req : Request) :
  Payment.handler req
  = match Payment.template (Js.get (params req) "id")
                           (Js.get (query req) "filter") with
    | Some text => Responded (Res.send req [] text)
    | None => Failed None
    end.
Proof. reflexivity. Qed.

(** The template of a string id and a filter that converts. *)
Lemma template_of_texts (d : string) (filter : Js.Value) (text : string) :
  Js.ToString filter = Some text ->
  Payment.template (Js.Str d) filter
  = Some ("User ID: " ++ d ++ ", Filter: " ++ text)%string.
Proof. intros H. unfold Payment.template. cbn [Js.ToString]. rewrite H. reflexivity. Qed.

(** The body parser changes nothing but [req.body]. *)
Lemma json_next (req req1 : Request) :
  Express.json req = Next req1 ->
  exists b, req1 = set_body req b.
Proof.
  unfold Express.json. destruct req as [m p q hs e ps b]; cbn.
  destruct e as [|e|text]; intros H.
  - inversion H. exists b. reflexivity.
  - discriminate H.
  - destruct (parse text) as [v|]; [|discriminate H].
    inversion H. exists (Some v). reflexivity.
Qed.

(** The errors of the body parser carry a status the final handler keeps. *)
Lemma json_failed_status (req : Request) (code : Z) :
  Express.json req = Failed (Some code) -> error_status (Some code) = code.
Proof.
  unfold Express.json. destruct (entity req) as [|e|text]; intros H.
  - discriminate H.
  - inversion H. destruct e; reflexivity.
  - destruct (parse text); [discriminate H|]. inversion H. reflexivity.
Qed.

(** Past the body parser and the User router, the rest of the stack. *)
Lemma app_past_user (State : Type) (userRoute : Middleware State)
      (req req1 : Request) (st st1 : State) :
  Express.json req = Next req1 ->
  passes userRoute req1 st st1 ->
  App.app userRoute req st
  = application [Use (App.paymentRoute State); Get "/" (stateless App.root)]
                req1 st1.
Proof.
  intros Hj Hu. unfold App.app, App.stack, application. cbn [handle].
  unfold stateless at 1. rewrite Hj, Hu. reflexivity.
Qed.

(** X8: a request the body parser rejects is answered by the final handler
    with the parser's status (400 for a syntax error, 413 or 415 for a body it
    cannot read), whatever its method and path: mounted first, the parser
    fails before the User router and the routes, none of which runs, and the
    process state is untouched. *)
Theorem app_json_failed (State : Type) (userRoute : Middleware State)
      (req : Request) (st : State) (code : Z) :
  Express.json req = Failed (Some code) ->
  App.app userRoute req st = (Final code, st).
Proof.
  intros Hj. pose proof (json_failed_status _ _ Hj) as Hs.
  unfold App.app, App.stack, application. cbn [handle].
  unfold stateless at 1. rewrite Hj.
  destruct (match_path "/" (path req)); rewrite Hs; reflexivity.
Qed.

(** A GET (or HEAD) request whose path matches the payment route and that
    reaches the payment router is answered by [res.send] with the template,
    or, when the template throws, by the final handler with 500. *)
Lemma app_payment_matched (State : Type) (userRoute : Middleware State)
      (req req1 : Request) (st st1 : State) (ps : Js.Object) :
  handles_method (method req) = true ->
  match_path "/users/:id/payment" (path req) = Matched ps ->
  Express.json req = Next req1 ->
  passes userRoute req1 st st1 ->
  App.app userRoute req st
  = (match Payment.template (Js.get ps "id") (Js.get (query req) "filter") with
     | Some text => Res.send (set_params req1 ps) [] text
     | None => Final 500
     end, st1).
Proof.
  intros Hm Hp Hj Hu.
  rewrite (app_past_user _ _ _ _ _ _ Hj Hu).
  destruct (json_next _ _ Hj) as [b ->].
  unfold application. cbn [handle]. unfold App.paymentRoute.
  rewrite payment_router_cases.
  change (path (set_body req b)) with (path req).
  change (method (set_body req b)) with (method req).
  rewrite Hp, Hm, payment_handler_cases.
  change (Js.get (params (set_params (set_body req b) ps)) "id")
    with (Js.get ps "id").
  change (query (set_params (set_body req b) ps)) with (query req).
  destruct (Payment.template (Js.get ps "id") (Js.get (query req) "filter"));
    [reflexivity|].
  cbn [handle]. change (path (set_body req b)) with (path req).
  destruct (match_path "/" (path req)); reflexivity.
Qed.

(** A GET request for [/users/<seg>/payment] whose segment decodes and
    whose filter converts, that reaches the payment router and is not fresh,
    is answered with the echo. *)
Lemma app_payment_echo (State : Type) (userRoute : Middleware State)
      (req req1 : Request) (st st1 : State) (seg d text : string) :
  method req = GET ->
  path req = ("/users/" ++ seg ++ "/payment")%string ->
  is_segment seg = true ->
  Js.decodeURIComponent seg = Some d ->
  Js.ToString (Js.get (query req) "filter") = Some text ->
  Express.json req = Next req1 ->
  passes userRoute req1 st st1 ->
  Fresh.req_fresh req (Etag.weak ("User ID: " ++ d ++ ", Filter: " ++ text))
  = false ->
  App.app userRoute req st
  = (Sent 200
          [("Content-Type", Res.html);
           ("Content-Length",
            Str.decimal (String.length ("User ID: " ++ d ++ ", Filter: " ++ text)));
           ("ETag", Etag.weak ("User ID: " ++ d ++ ", Filter: " ++ text))]
          ("User ID: " ++ d ++ ", Filter: " ++ text), st1).
Proof.
  intros Hm Hp Hseg Hdec Hf Hj Hu Hstale.
  rewrite (app_payment_matched State userRoute req req1 st st1
                               [("id", Js.Str d)]);
    [ | rewrite Hm; reflexivity
      | rewrite Hp; apply payment_path_matches; assumption
      | assumption | assumption ].
  change (Js.get [("id", Js.Str d)] "id") with (Js.Str d).
  rewrite (template_of_texts d _ text Hf).
  destruct (json_next _ _ Hj) as [b ->].
  rewrite send_stale by exact Hstale.
  change (method (set_params (set_body req b) [("id", Js.Str d)]))
    with (method req).
  rewrite Hm. reflexivity.
Qed.

Lemma plain_get_json (req : Request) (pathname : string) :
  plain_get req pathname -> Express.json req = Next req.
Proof.
  intros (_ & _ & He & _). unfold Express.json. rewrite He. reflexivity.
Qed.

Lemma plain_get_payment (State : Type) (userRoute : Middleware State)
      (req : Request) (st st1 : State) (seg d text : string) :
  plain_get req ("/users/" ++ seg ++ "/payment") ->
  is_segment seg = true ->
  Js.decodeURIComponent seg = Some d ->
  Js.ToString (Js.get (query req) "filter") = Some text ->
  passes userRoute req st st1 ->
  fst (App.app userRoute req st)
  = Sent 200
         [("Content-Type", Res.html);
          ("Content-Length",
           Str.decimal (String.length ("User ID: " ++ d ++ ", Filter: " ++ text)));
          ("ETag", Etag.weak ("User ID: " ++ d ++ ", Filter: " ++ text))]
         ("User ID: " ++ d ++ ", Filter: " ++ text).
Proof.
  intros Hplain Hseg Hdec Hf Hu.
  pose proof (plain_get_json _ _ Hplain) as Hj.
  destruct Hplain as (Hm & Hp & He & Hc).
  rewrite (app_payment_echo State userRoute req req st st1 seg d text); auto.
  apply unconditional_never_fresh. exact Hc.
Qed.

Lemma append_cancel_l (a b c : string) :
  (a ++ b)%string = (a ++ c)%string -> b = c.
Proof.
  induction a as [|x a IH]; simpl; intros H; [exact H|].
  inversion H. auto.
Qed.

(** Every response of [res.send] is a 200 typed as html or a bare 304. *)
Lemma send_content_type (req : Request) (preset : list (string * string))
      (chunk : string) :
  header preset "Content-Type" = None ->
  (status (Res.send req preset chunk) = 200%Z /\
   response_header (Res.send req preset chunk) "Content-Type"
   = Some "text/html; charset=utf-8")
  \/ (status (Res.send req preset chunk) = 304%Z /\
      response_header (Res.send req preset chunk) "Content-Type" = None).
Proof.
  intros Hpre.
  assert (Happ : forall tl, header (preset ++ tl) "Content-Type"
                            = header tl "Content-Type").
  { induction preset as [|[k v] r IH]; intros tl; [reflexivity|].
    simpl in *. destruct (String.eqb k "Content-Type"); [discriminate Hpre|].
    apply IH. exact Hpre. }
  destruct (Fresh.req_fresh req (Etag.weak chunk)) eqn:Hf.
  - right. rewrite (send_fresh _ _ _ Hf). cbn [status response_header].
    rewrite Happ. split; reflexivity.
  - left. rewrite (send_stale _ _ _ Hf). cbn [status response_header].
    rewrite Happ. split; reflexivity.
Qed.

(** ** Dependence *)

Lemma send_depends_on (ra rb : Request) (preset : list (string * string))
      (chunk : string) :
  method ra = method rb ->
  Fresh.req_fresh ra (Etag.weak chunk) = Fresh.req_fresh rb (Etag.weak chunk) ->
  Res.send ra preset chunk = Res.send rb preset chunk.
Proof. intros Hm Hf. unfold Res.send. rewrite Hm, Hf. reflexivity. Qed.

(* ------------------------------------------------------------------ *)
(** * The claims *)

(** C1, as stated ("for every string id", every GET request), fails in five
    ways.  At the empty id the path [/users//payment] matches no route: 404.
    The id [%] matches the route but does not decode: 400.  The id [a%20b]
    is echoed decoded, as [a b].  With id 42, a JSON body that does not parse
    is answered 400 by the body parser, and a validator that matches the
    entity tag of the echo is answered 304 with an empty body. *)
Lemma payment_filter_echo_needs_conditions :
  fst (App.app App.noUserRoutes (payment_request "" filter_recent) tt)
  = Final 404 /\
  fst (App.app App.noUserRoutes (payment_request "%" filter_recent) tt)
  = Final 400 /\
  sent_body (fst (App.app App.noUserRoutes
                          (payment_request "a%20b" filter_recent) tt))
  = Some "User ID: a b, Filter: recent" /\
  fst (App.app App.noUserRoutes
               (with_json "{" (payment_request "42" filter_recent)) tt)
  = Final 400 /\
  fst (App.app App.noUserRoutes
               (with_header "if-none-match"
                            (Etag.weak "User ID: 42, Filter: recent")
                            (payment_request "42" filter_recent)) tt)
  = Sent 304 [("ETag", Etag.weak "User ID: 42, Filter: recent")] "".
Proof. repeat split; vm_compute; reflexivity. Qed.

(** C1 (amended): for every id that is a non-empty path segment (no [/])
    whose percent-escapes decode, giving d (id itself when it has none), and
    every string f, a GET request to [/users/<id>/payment] whose query
    parameter [filter] is f, that the JSON body parser accepts, that the User
    router passes on and that is not fresh (its validators, if any, do not
    match the entity tag of the echo), is answered with status 200 and body
    [User ID: <d>, Filter: <f>]. *)
Theorem payment_echoes_id_and_filter
        (State : Type) (userRoute : Middleware State)
        (req req1 : Request) (st st1 : State) (id d f : string) :
  method req = GET ->
  path req = ("/users/" ++ id ++ "/payment")%string ->
  is_segment id = true ->
  Js.decodeURIComponent id = Some d ->
  Js.get (query req) "filter" = Js.Str f ->
  Express.json req = Next req1 ->
  passes userRoute req1 st st1 ->
  Fresh.req_fresh req (Etag.weak ("User ID: " ++ d ++ ", Filter: " ++ f))
  = false ->
  status (fst (App.app userRoute req st)) = 200%Z /\
  sent_body (fst (App.app userRoute req st))
  = Some ("User ID: " ++ d ++ ", Filter: " ++ f)%string.
Proof.
  intros Hm Hp Hseg Hdec Hf Hj Hu Hstale.
  rewrite (app_payment_echo State userRoute req req1 st st1 id d f
             Hm Hp Hseg Hdec);
    [split; reflexivity | rewrite Hf; reflexivity | assumption ..].
Qed.

Lemma payment_echoes_id_and_filter_witness :
  method (dressed (payment_request "a%20b" filter_recent)) = GET /\
  path (dressed (payment_request "a%20b" filter_recent))
  = ("/users/" ++ "a%20b" ++ "/payment")%string /\
  is_segment "a%20b" = true /\
  Js.decodeURIComponent "a%20b" = Some "a b" /\
  Js.get (query (dressed (payment_request "a%20b" filter_recent))) "filter"
  = Js.Str "recent" /\
  Express.json (dressed (payment_request "a%20b" filter_recent))
  = Next (set_body (dressed (payment_request "a%20b" filter_recent)) (Some "{}")) /\
  passes App.noUserRoutes
         (set_body (dressed (payment_request "a%20b" filter_recent)) (Some "{}"))
         tt tt /\
  Fresh.req_fresh (dressed (payment_request "a%20b" filter_recent))
                  (Etag.weak ("User ID: " ++ "a b" ++ ", Filter: " ++ "recent"))
  = false /\
  status (fst (App.app App.noUserRoutes
                       (dressed (payment_request "a%20b" filter_recent)) tt))
  = 200%Z /\
  sent_body (fst (App.app App.noUserRoutes
                          (dressed (payment_request "a%20b" filter_recent)) tt))
  = Some ("User ID: " ++ "a b" ++ ", Filter: " ++ "recent")%string.
Proof.
  assert (Hj : Express.json (dressed (payment_request "a%20b" filter_recent))
               = Next (set_body (dressed (payment_request "a%20b" filter_recent))
                                (Some "{}")))
    by (vm_compute; reflexivity).
  assert (Hu : passes App.noUserRoutes
                      (set_body (dressed (payment_request "a%20b" filter_recent))
                                (Some "{}")) tt tt)
    by reflexivity.
  assert (Hs : Fresh.req_fresh
                 (dressed (payment_request "a%20b" filter_recent))
                 (Etag.weak ("User ID: " ++ "a b" ++ ", Filter: " ++ "recent"))
               = false)
    by (vm_compute; reflexivity).
  do 8 (split; [first [exact Hj | exact Hu | exact Hs | reflexivity]|]).
  exact (payment_echoes_id_and_filter unit App.noUserRoutes
           (dressed (payment_request "a%20b" filter_recent))
           (set_body (dressed (payment_request "a%20b" filter_recent)) (Some "{}"))
           tt tt "a%20b" "a b" "recent"
           eq_refl eq_refl eq_refl eq_refl eq_refl Hj Hu Hs).
Defined.

(** C2, as stated ("for every string id", every GET request), fails in five
    ways: the empty id (404), an id that does not decode (400), an id with an
    escape (echoed decoded), a JSON body that does not parse (400), and a
    validator that matches the entity tag of the echo (304, empty body). *)
Lemma payment_undefined_echo_needs_conditions :
  fst (App.app App.noUserRoutes (payment_request "" no_query) tt)
  = Final 404 /\
  fst (App.app App.noUserRoutes (payment_request "%" no_query) tt)
  = Final 400 /\
  sent_body (fst (App.app App.noUserRoutes
                          (payment_request "a%20b" no_query) tt))
  = Some "User ID: a b, Filter: undefined" /\
  fst (App.app App.noUserRoutes
               (with_json "{" (payment_request "42" no_query)) tt)
  = Final 400 /\
  fst (App.app App.noUserRoutes
               (with_header "if-none-match"
                            (Etag.weak "User ID: 42, Filter: undefined")
                            (payment_request "42" no_query)) tt)
  = Sent 304 [("ETag", Etag.weak "User ID: 42, Filter: undefined")] "".
Proof. repeat split; vm_compute; reflexivity. Qed.

(** C2 (amended): for every id that is a non-empty path segment whose
    percent-escapes decode, giving d, a GET request to [/users/<id>/payment]
    without a [filter] query parameter, that the JSON body parser accepts,
    that the User router passes on and that is not fresh, is answered with
    status 200 and body [User ID: <d>, Filter: undefined]: the absent
    parameter renders as the text [undefined]. *)
Theorem payment_absent_filter_renders_undefined
        (State : Type) (userRoute : Middleware State)
        (req req1 : Request) (st st1 : State) (id d : string) :
  method req = GET ->
  path req = ("/users/" ++ id ++ "/payment")%string ->
  is_segment id = true ->
  Js.decodeURIComponent id = Some d ->
  Js.get (query req) "filter" = Js.Undefined ->
  Express.json req = Next req1 ->
  passes userRoute req1 st st1 ->
  Fresh.req_fresh req (Etag.weak ("User ID: " ++ d ++ ", Filter: undefined"))
  = false ->
  status (fst (App.app userRoute req st)) = 200%Z /\
  sent_body (fst (App.app userRoute req st))
  = Some ("User ID: " ++ d ++ ", Filter: undefined")%string.
Proof.
  intros Hm Hp Hseg Hdec Hf Hj Hu Hstale.
  rewrite (app_payment_echo State userRoute req req1 st st1 id d "undefined"
             Hm Hp Hseg Hdec);
    [split; reflexivity | rewrite Hf; reflexivity | assumption ..].
Qed.

Lemma payment_absent_filter_renders_undefined_witness :
  method (dressed (payment_request "42" no_query)) = GET /\
  path (dressed (payment_request "42" no_query))
  = ("/users/" ++ "42" ++ "/payment")%string /\
  is_segment "42" = true /\
  Js.decodeURIComponent "42" = Some "42" /\
  Js.get (query (dressed (payment_request "42" no_query))) "filter"
  = Js.Undefined /\
  Express.json (dressed (payment_request "42" no_query))
  = Next (set_body (dressed (payment_request "42" no_query)) (Some "{}")) /\
  passes App.noUserRoutes
         (set_body (dressed (payment_request "42" no_query)) (Some "{}")) tt tt /\
  Fresh.req_fresh (dressed (payment_request "42" no_query))
                  (Etag.weak ("User ID: " ++ "42" ++ ", Filter: undefined"))
  = false /\
  status (fst (App.app App.noUserRoutes
                       (dressed (payment_request "42" no_query)) tt)) = 200%Z /\
  sent_body (fst (App.app App.noUserRoutes
                          (dressed (payment_request "42" no_query)) tt))
  = Some ("User ID: " ++ "42" ++ ", Filter: undefined")%string.
Proof.
  assert (Hj : Express.json (dressed (payment_request "42" no_query))
               = Next (set_body (dressed (payment_request "42" no_query))
                                (Some "{}")))
    by (vm_compute; reflexivity).
  assert (Hu : passes App.noUserRoutes
                      (set_body (dressed (payment_request "42" no_query))
                                (Some "{}")) tt tt)
    by reflexivity.
  assert (Hs : Fresh.req_fresh
                 (dressed (payment_request "42" no_query))
                 (Etag.weak ("User ID: " ++ "42" ++ ", Filter: undefined"))
               = false)
    by (vm_compute; reflexivity).
  do 8 (split; [first [exact Hj | exact Hu | exact Hs | reflexivity]|]).
  exact (payment_absent_filter_renders_undefined unit App.noUserRoutes
           (dressed (payment_request "42" no_query))
           (set_body (dressed (payment_request "42" no_query)) (Some "{}"))
           tt tt "42" "42"
           eq_refl eq_refl eq_refl eq_refl eq_refl Hj Hu Hs).
Defined.

(** C9, as stated ("for every string id", every GET request), fails in five
    ways: the empty id (404), an id that does not decode (400), an id with an
    escape (echoed decoded), a JSON body that does not parse (400), and a
    validator that matches the entity tag of the echo (304, empty body). *)
Lemma payment_empty_filter_echo_needs_conditions :
  fst (App.app App.noUserRoutes (payment_request "" filter_empty) tt)
  = Final 404 /\
  fst (App.app App.noUserRoutes (payment_request "%" filter_empty) tt)
  = Final 400 /\
  sent_body (fst (App.app App.noUserRoutes
                          (payment_request "a%20b" filter_empty) tt))
  = Some "User ID: a b, Filter: " /\
  fst (App.app App.noUserRoutes
               (with_json "{" (payment_request "42" filter_empty)) tt)
  = Final 400 /\
  fst (App.app App.noUserRoutes
               (with_header "if-none-match"
                            (Etag.weak "User ID: 42, Filter: ")
                            (payment_request "42" filter_empty)) tt)
  = Sent 304 [("ETag", Etag.weak "User ID: 42, Filter: ")] "".
Proof. repeat split; vm_compute; reflexivity. Qed.

(** C9 (amended): for every id that is a non-empty path segment whose
    percent-escapes decode, giving d, a GET request to [/users/<id>/payment]
    whose [filter] parameter is present and empty, that the JSON body parser
    accepts, that the User router passes on and that is not fresh, is
    answered with body [User ID: <d>, Filter: ], which is not the body
    [User ID: <d>, Filter: undefined] of the request without the parameter:
    an empty filter and an absent one are told apart. *)
Theorem payment_empty_filter_is_not_absent
        (State : Type) (userRoute : Middleware State)
        (req req1 : Request) (st st1 : State) (id d : string) :
  method req = GET ->
  path req = ("/users/" ++ id ++ "/payment")%string ->
  is_segment id = true ->
  Js.decodeURIComponent id = Some d ->
  Js.get (query req) "filter" = Js.Str "" ->
  Express.json req = Next req1 ->
  passes userRoute req1 st st1 ->
  Fresh.req_fresh req (Etag.weak ("User ID: " ++ d ++ ", Filter: ")) = false ->
  sent_body (fst (App.app userRoute req st))
  = Some ("User ID: " ++ d ++ ", Filter: ")%string /\
  sent_body (fst (App.app userRoute req st))
  <> Some ("User ID: " ++ d ++ ", Filter: undefined")%string.
Proof.
  intros Hm Hp Hseg Hdec Hf Hj Hu Hstale.
  rewrite (app_payment_echo State userRoute req req1 st st1 id d ""
             Hm Hp Hseg Hdec);
    [ | rewrite Hf; reflexivity | assumption ..].
  cbn [fst sent_body]. split; [reflexivity|].
  intros H. inversion H as [H1].
  apply append_cancel_l in H1. discriminate H1.
Qed.

Lemma payment_empty_filter_is_not_absent_witness :
  method (dressed (payment_request "42" filter_empty)) = GET /\
  path (dressed (payment_request "42" filter_empty))
  = ("/users/" ++ "42" ++ "/payment")%string /\
  is_segment "42" = true /\
  Js.decodeURIComponent "42" = Some "42" /\
  Js.get (query (dressed (payment_request "42" filter_empty))) "filter"
  = Js.Str "" /\
  Express.json (dressed (payment_request "42" filter_empty))
  = Next (set_body (dressed (payment_request "42" filter_empty)) (Some "{}")) /\
  passes App.noUserRoutes
         (set_body (dressed (payment_request "42" filter_empty)) (Some "{}"))
         tt tt /\
  Fresh.req_fresh (dressed (payment_request "42" filter_empty))
                  (Etag.weak ("User ID: " ++ "42" ++ ", Filter: "))
  = false /\
  sent_body (fst (App.app App.noUserRoutes
                          (dressed (payment_request "42" filter_empty)) tt))
  = Some ("User ID: " ++ "42" ++ ", Filter: ")%string /\
  sent_body (fst (App.app App.noUserRoutes
                          (dressed (payment_request "42" filter_empty)) tt))
  <> Some ("User ID: " ++ "42" ++ ", Filter: undefined")%string.
Proof.
  assert (Hj : Express.json (dressed (payment_request "42" filter_empty))
               = Next (set_body (dressed (payment_request "42" filter_empty))
                                (Some "{}")))
    by (vm_compute; reflexivity).
  assert (Hu : passes App.noUserRoutes
                      (set_body (dressed (payment_request "42" filter_empty))
                                (Some "{}")) tt tt)
    by reflexivity.
  assert (Hs : Fresh.req_fresh
                 (dressed (payment_request "42" filter_empty))
                 (Etag.weak ("User ID: " ++ "42" ++ ", Filter: "))
               = false)
    by (vm_compute; reflexivity).
  do 8 (split; [first [exact Hj | exact Hu | exact Hs | reflexivity]|]).
  exact (payment_empty_filter_is_not_absent unit App.noUserRoutes
           (dressed (payment_request "42" filter_empty))
           (set_body (dressed (payment_request "42" filter_empty)) (Some "{}"))
           tt tt "42" "42"
           eq_refl eq_refl eq_refl eq_refl eq_refl Hj Hu Hs).
Defined.

(** C3, as stated, fails on the specification's own first scenario: the
    response to [GET /users/42/payment] is typed [text/html], not
    [text/plain]. *)
Lemma payment_content_type_is_html :
  response_header (fst (App.app App.noUserRoutes get_42 tt)) "Content-Type"
  = Some "text/html; charset=utf-8" /\
  response_header (fst (App.app App.noUserRoutes get_42 tt)) "Content-Type"
  <> Some "text/plain".
Proof. split; [vm_compute; reflexivity | vm_compute; discriminate]. Qed.

(** C3 (amended): every response the payment endpoint sends with status 200
    carries [Content-Type: text/html; charset=utf-8], the type [res.send]
    gives a string when none was set; its only other response, 304 Not
    Modified, carries no Content-Type. *)
Theorem payment_responses_are_html
        (State : Type) (req : Request) (st st1 : State) (r : Response) :
  Payment.router State req st = (Responded r, st1) ->
  (status r = 200%Z /\
   response_header r "Content-Type" = Some "text/html; charset=utf-8")
  \/ (status r = 304%Z /\ response_header r "Content-Type" = None).
Proof.
  rewrite payment_router_cases.
  destruct (match_path "/users/:id/payment" (path req)) as [|ps|];
    [discriminate | | discriminate].
  destruct (method req); cbn [handles_method]; rewrite ?payment_handler_cases;
    try destruct (Payment.template _ _);
    intros H; inversion H; subst;
    apply send_content_type; reflexivity.
Qed.

Lemma payment_responses_are_html_witness :
  Payment.router unit get_42 tt
  = (Responded (fst (App.app App.noUserRoutes get_42 tt)), tt) /\
  ((status (fst (App.app App.noUserRoutes get_42 tt)) = 200%Z /\
    response_header (fst (App.app App.noUserRoutes get_42 tt)) "Content-Type"
    = Some "text/html; charset=utf-8")
   \/ (status (fst (App.app App.noUserRoutes get_42 tt)) = 304%Z /\
       response_header (fst (App.app App.noUserRoutes get_42 tt)) "Content-Type"
       = None)).
Proof.
  assert (H : Payment.router unit get_42 tt
              = (Responded (fst (App.app App.noUserRoutes get_42 tt)), tt))
    by (vm_compute; reflexivity).
  split; [exact H|].
  exact (payment_responses_are_html unit get_42 tt tt
           (fst (App.app App.noUserRoutes get_42 tt)) H).
Defined.

(** C4, as stated ("every GET request", "independent of request headers"),
    fails: a request whose [If-None-Match] header names the current entity
    tag is answered 304 with an empty body by [res.send], and a request whose
    JSON body does not parse is answered 400 before any handler runs. *)
Lemma root_is_not_always_200 :
  fst (App.app App.noUserRoutes revalidate_root tt)
  = Sent 304 [("ETag", Etag.weak "Hello World")] "" /\
  fst (App.app App.noUserRoutes root_with_broken_json tt) = Final 400.
Proof. split; vm_compute; reflexivity. Qed.

(** C4 (amended): every GET request to [/] that the JSON body parser accepts,
    that the User router passes on and that is not fresh (its validators, if
    any, do not match the entity tag of [Hello World]) is answered with status
    200 and body [Hello World], whatever its other headers, query and
    parameters; the handler leaves the process state as the User router left
    it. *)
Theorem root_says_hello
        (State : Type) (userRoute : Middleware State)
        (req req1 : Request) (st st1 : State) :
  method req = GET ->
  path req = "/" ->
  Express.json req = Next req1 ->
  passes userRoute req1 st st1 ->
  Fresh.req_fresh req (Etag.weak "Hello World") = false ->
  App.app userRoute req st
  = (Sent 200 [("Content-Type", "text/html; charset=utf-8");
               ("Content-Length", "11");
               ("ETag", Etag.weak "Hello World")]
          "Hello World", st1).
Proof.
  intros Hm Hp Hj Hu Hf.
  rewrite (app_past_user _ _ _ _ _ _ Hj Hu).
  destruct (json_next _ _ Hj) as [b ->].
  unfold application. cbn [handle]. unfold App.paymentRoute.
  rewrite payment_router_cases.
  change (path (set_body req b)) with (path req).
  change (method (set_body req b)) with (method req).
  rewrite Hp, Hm.
  replace (match_path "/users/:id/payment" "/") with NoMatch by reflexivity.
  cbn [handle].
  change (path (set_body req b)) with (path req).
  change (method (set_body req b)) with (method req).
  rewrite Hp, Hm.
  replace (match_path "/" "/") with (Matched []) by reflexivity.
  cbn [handles_method]. unfold stateless, App.root.
  rewrite send_stale by exact Hf.
  change (method (set_params (set_body req b) [])) with (method req).
  rewrite Hm. reflexivity.
Qed.

Lemma root_says_hello_witness :
  method get_root_with_headers = GET /\
  path get_root_with_headers = "/" /\
  Express.json get_root_with_headers
  = Next (set_body get_root_with_headers (Some "{}")) /\
  passes App.noUserRoutes (set_body get_root_with_headers (Some "{}")) tt tt /\
  Fresh.req_fresh get_root_with_headers (Etag.weak "Hello World") = false /\
  App.app App.noUserRoutes get_root_with_headers tt
  = (Sent 200 [("Content-Type", "text/html; charset=utf-8");
               ("Content-Length", "11");
               ("ETag", Etag.weak "Hello World")]
          "Hello World", tt).
Proof.
  assert (Hj : Express.json get_root_with_headers
               = Next (set_body get_root_with_headers (Some "{}")))
    by (vm_compute; reflexivity).
  assert (Hu : passes App.noUserRoutes
                      (set_body get_root_with_headers (Some "{}")) tt tt)
    by reflexivity.
  assert (Hf : Fresh.req_fresh get_root_with_headers (Etag.weak "Hello World")
               = false)
    by (vm_compute; reflexivity).
  do 5 (split; [first [exact Hj | exact Hu | exact Hf | reflexivity]|]).
  exact (root_says_hello unit App.noUserRoutes get_root_with_headers
           (set_body get_root_with_headers (Some "{}")) tt tt
           eq_refl eq_refl Hj Hu Hf).
Defined.

(** C5, as stated ("for every request whose path matches neither"), fails:
    the path [/nowhere] matches no route, yet a request for it whose JSON body
    does not parse gets the final handler's 400, not its 404. *)
Lemma unmatched_path_with_broken_json_is_400 :
  match_path "/" (path post_nowhere_broken_json) = NoMatch /\
  match_path "/users/:id/payment" (path post_nowhere_broken_json) = NoMatch /\
  fst (App.app App.noUserRoutes post_nowhere_broken_json tt) = Final 400.
Proof. repeat split; vm_compute; reflexivity. Qed.

(** C5 (amended): for every request that the JSON body parser accepts, that
    the User router passes on, and whose path matches neither [/] nor
    [/users/:id/payment], the application produces the final handler's 404
    response; no handler and no error middleware of the application takes
    part. *)
Theorem unmatched_path_is_404
        (State : Type) (userRoute : Middleware State)
        (req req1 : Request) (st st1 : State) :
  match_path "/" (path req) = NoMatch ->
  match_path "/users/:id/payment" (path req) = NoMatch ->
  Express.json req = Next req1 ->
  passes userRoute req1 st st1 ->
  App.app userRoute req st = (Final 404, st1).
Proof.
  intros Hroot Hpay Hj Hu.
  rewrite (app_past_user _ _ _ _ _ _ Hj Hu).
  destruct (json_next _ _ Hj) as [b ->].
  unfold application. cbn [handle]. unfold App.paymentRoute.
  rewrite payment_router_cases.
  change (path (set_body req b)) with (path req).
  rewrite Hpay. cbn [handle].
  change (path (set_body req b)) with (path req).
  rewrite Hroot. cbn [handle].
  destruct (method (set_body req b)); reflexivity.
Qed.

Lemma unmatched_path_is_404_witness :
  match_path "/" (path delete_unknown) = NoMatch /\
  match_path "/users/:id/payment" (path delete_unknown) = NoMatch /\
  Express.json delete_unknown = Next (set_body delete_unknown (Some "[1, 2]")) /\
  passes App.noUserRoutes (set_body delete_unknown (Some "[1, 2]")) tt tt /\
  App.app App.noUserRoutes delete_unknown tt = (Final 404, tt).
Proof.
  assert (Hj : Express.json delete_unknown
               = Next (set_body delete_unknown (Some "[1, 2]")))
    by (vm_compute; reflexivity).
  assert (Hu : passes App.noUserRoutes
                      (set_body delete_unknown (Some "[1, 2]")) tt tt)
    by reflexivity.
  do 4 (split; [first [exact Hj | exact Hu | reflexivity]|]).
  exact (unmatched_path_is_404 unit App.noUserRoutes delete_unknown
           (set_body delete_unknown (Some "[1, 2]")) tt tt
           eq_refl eq_refl Hj Hu).
Defined.

(** C6, as stated ("no error conditions", "however malformed", "no failure
    branch"), fails twice.  The segment [%] satisfies the route pattern but
    does not decode: the router raises a 400 error and the handler never
    runs.  And the handler can fail: with the query [?filter[toString]=x]
    the filter is an object whose [toString] is a string, the template
    literal throws a TypeError, and the application answers 500. *)
Lemma payment_distinguishes_error_conditions :
  is_segment "%" = true /\
  Payment.router unit (payment_request "%" no_query) tt
  = (Failed (Some 400%Z), tt) /\
  fst (App.app App.noUserRoutes (payment_request "%" no_query) tt)
  = Final 400 /\
  is_segment "42" = true /\
  Payment.router unit (payment_request "42" filter_shadowing_toString) tt
  = (Failed None, tt) /\
  fst (App.app App.noUserRoutes
               (payment_request "42" filter_shadowing_toString) tt)
  = Final 500.
Proof. repeat split; vm_compute; reflexivity. Qed.

(** C6 (amended): for every non-empty path segment supplied as id whose
    percent-escapes decode, the route matches, binding [id] to the decoded
    text d, and when the filter converts to a string (the template literal
    does not throw) the handler answers a GET that is not fresh with status
    200 and the templated string for d and the filter.  Neither value is
    validated: this holds for every decoded id and every filter that
    converts. *)
Theorem payment_route_serves_decodable_ids
        (State : Type) (req : Request) (st : State) (seg d text : string) :
  method req = GET ->
  path req = ("/users/" ++ seg ++ "/payment")%string ->
  is_segment seg = true ->
  Js.decodeURIComponent seg = Some d ->
  Js.ToString (Js.get (query req) "filter") = Some text ->
  Fresh.req_fresh req (Etag.weak ("User ID: " ++ d ++ ", Filter: " ++ text))
  = false ->
  match_path "/users/:id/payment" (path req) = Matched [("id", Js.Str d)] /\
  (exists hs,
      Payment.router State req st
      = (Responded
           (Sent 200 hs ("User ID: " ++ d ++ ", Filter: " ++ text)), st)).
Proof.
  intros Hm Hp Hseg Hdec Hf Hstale.
  assert (Hmatch : match_path "/users/:id/payment" (path req)
                   = Matched [("id", Js.Str d)])
    by (rewrite Hp; apply payment_path_matches; assumption).
  split; [exact Hmatch|].
  rewrite payment_router_cases, Hmatch, Hm. cbn [handles_method].
  rewrite payment_handler_cases.
  change (Js.get (params (set_params req [("id", Js.Str d)])) "id")
    with (Js.Str d).
  change (query (set_params req [("id", Js.Str d)])) with (query req).
  rewrite (template_of_texts d _ text Hf).
  rewrite send_stale by exact Hstale.
  change (method (set_params req [("id", Js.Str d)])) with (method req).
  rewrite Hm. eexists. reflexivity.
Qed.

Lemma payment_route_serves_decodable_ids_witness :
  method get_escaped_id = GET /\
  path get_escaped_id = ("/users/" ++ "a%2Fb%20c" ++ "/payment")%string /\
  is_segment "a%2Fb%20c" = true /\
  Js.decodeURIComponent "a%2Fb%20c" = Some "a/b c" /\
  Js.ToString (Js.get (query get_escaped_id) "filter") = Some "recent" /\
  Fresh.req_fresh get_escaped_id
                  (Etag.weak ("User ID: " ++ "a/b c" ++ ", Filter: " ++ "recent"))
  = false /\
  match_path "/users/:id/payment" (path get_escaped_id)
  = Matched [("id", Js.Str "a/b c")] /\
  (exists hs,
      Payment.router unit get_escaped_id tt
      = (Responded
           (Sent 200 hs ("User ID: " ++ "a/b c" ++ ", Filter: " ++ "recent")),
         tt)).
Proof.
  assert (Hs : Fresh.req_fresh
                 get_escaped_id
                 (Etag.weak ("User ID: " ++ "a/b c" ++ ", Filter: " ++ "recent"))
               = false)
    by (vm_compute; reflexivity).
  do 6 (split; [first [exact Hs | reflexivity]|]).
  exact (payment_route_serves_decodable_ids unit get_escaped_id tt
           "a%2Fb%20c" "a/b c" "recent"
           eq_refl eq_refl eq_refl eq_refl eq_refl Hs).
Defined.

(** C10, as stated, fails: with id and filter fixed, the body decides
    between the echo and the body parser's 400, and the [If-None-Match]
    header decides between the echo and an empty 304. *)
Lemma payment_response_varies_with_body_and_headers :
  fst (App.app App.noUserRoutes get_42_recent tt)
  = Sent 200 [("Content-Type", "text/html; charset=utf-8");
              ("Content-Length", "27");
              ("ETag", Etag.weak "User ID: 42, Filter: recent")]
         "User ID: 42, Filter: recent" /\
  fst (App.app App.noUserRoutes get_42_recent_broken_json tt) = Final 400 /\
  fst (App.app App.noUserRoutes get_42_recent_revalidate tt)
  = Sent 304 [("ETag", Etag.weak "User ID: 42, Filter: recent")] "".
Proof. repeat split; vm_compute; reflexivity. Qed.

(** C10 (amended): the response of the payment endpoint depends only on the
    path parameter id, the query parameter filter and the freshness of the
    request: two GET requests to it that agree on id and filter, that the
    JSON body parser accepts and the User router passes on, and that are
    fresh against the same entity tags, get identical responses, whatever
    their bodies, their other headers and their other query parameters. *)
Theorem payment_response_depends_on_id_and_filter
        (State : Type) (userRoute : Middleware State)
        (r1 r2 : Request) (s1 s2 : State) (ps : Js.Object) :
  payment_get r1 ps ->
  payment_get r2 ps ->
  Js.get (query r1) "filter" = Js.get (query r2) "filter" ->
  reaches_routes userRoute r1 s1 ->
  reaches_routes userRoute r2 s2 ->
  (forall etag, Fresh.req_fresh r1 etag = Fresh.req_fresh r2 etag) ->
  fst (App.app userRoute r1 s1) = fst (App.app userRoute r2 s2).
Proof.
  intros [Hm1 Hp1] [Hm2 Hp2] Hfilter (ra & sa & Hj1 & Hu1) (rb & sb & Hj2 & Hu2)
         Hfresh.
  rewrite (app_payment_matched State userRoute r1 ra s1 sa ps);
    [| rewrite Hm1; reflexivity | assumption ..].
  rewrite (app_payment_matched State userRoute r2 rb s2 sb ps);
    [| rewrite Hm2; reflexivity | assumption ..].
  cbn [fst]. rewrite Hfilter.
  destruct (json_next _ _ Hj1) as [b1 ->].
  destruct (json_next _ _ Hj2) as [b2 ->].
  destruct (Payment.template (Js.get ps "id") (Js.get (query r2) "filter"));
    [|reflexivity].
  apply send_depends_on.
  - change (method r1 = method r2). congruence.
  - apply (Hfresh _).
Qed.

Lemma payment_response_depends_on_id_and_filter_witness :
  payment_get get_42_recent [("id", Js.Str "42")] /\
  payment_get get_42_recent_dressed [("id", Js.Str "42")] /\
  Js.get (query get_42_recent) "filter"
  = Js.get (query get_42_recent_dressed) "filter" /\
  reaches_routes App.noUserRoutes get_42_recent tt /\
  reaches_routes App.noUserRoutes get_42_recent_dressed tt /\
  (forall etag, Fresh.req_fresh get_42_recent etag
                = Fresh.req_fresh get_42_recent_dressed etag) /\
  fst (App.app App.noUserRoutes get_42_recent tt)
  = fst (App.app App.noUserRoutes get_42_recent_dressed tt).
Proof.
  assert (H1 : payment_get get_42_recent [("id", Js.Str "42")])
    by (split; reflexivity).
  assert (H2 : payment_get get_42_recent_dressed [("id", Js.Str "42")])
    by (split; reflexivity).
  assert (R1 : reaches_routes App.noUserRoutes get_42_recent tt)
    by (exists get_42_recent, tt; split; reflexivity).
  assert (R2 : reaches_routes App.noUserRoutes get_42_recent_dressed tt)
    by (exists (set_body get_42_recent_dressed (Some "[1, 2, 3]")), tt;
        split; reflexivity).
  assert (F : forall etag, Fresh.req_fresh get_42_recent etag
                           = Fresh.req_fresh get_42_recent_dressed etag)
    by (intros etag; reflexivity).
  do 6 (split; [first [exact H1 | exact H2 | exact R1 | exact R2 | exact F
                      | reflexivity]|]).
  exact (payment_response_depends_on_id_and_filter unit App.noUserRoutes
           get_42_recent get_42_recent_dressed tt tt [("id", Js.Str "42")]
           H1 H2 eq_refl R1 R2 F).
Defined.

(* ------------------------------------------------------------------ *)
(** * Further properties of the routes, the stack and the responses *)

(** ** Splitting and joining *)

Lemma split_not_nil (sep : ascii) (s : string) : Str.split sep s <> [].
Proof.
  destruct s as [|c r]; simpl; [discriminate|].
  destruct (Ascii.eqb c sep); [discriminate|].
  destruct (Str.split sep r); discriminate.
Qed.

Lemma join_split (sep : ascii) (s : string) :
  Str.join (String sep EmptyString) (Str.split sep s) = s.
Proof.
  induction s as [|c r IH]; [reflexivity|].
  simpl. destruct (Ascii.eqb c sep) eqn:Hc.
  - apply Ascii.eqb_eq in Hc. subst c.
    destruct (Str.split sep r) as [|h t] eqn:Hs;
      [exfalso; exact (split_not_nil sep r Hs)|].
    cbn [Str.join]. cbn [Str.join] in IH. rewrite IH. reflexivity.
  - destruct (Str.split sep r) as [|h t] eqn:Hs;
      [exfalso; exact (split_not_nil sep r Hs)|].
    cbn [Str.join] in *. destruct t; rewrite <- IH; reflexivity.
Qed.

Lemma split_pieces_without_separator (sep : ascii) (s p : string) :
  In p (Str.split sep s) -> Str.contains sep p = false.
Proof.
  revert p. induction s as [|c r IH]; intros p Hin.
  - simpl in Hin. destruct Hin as [<-|[]]. reflexivity.
  - simpl in Hin. destruct (Ascii.eqb c sep) eqn:Hc.
    + destruct Hin as [<-|Hin]; [reflexivity | apply IH; exact Hin].
    + destruct (Str.split sep r) as [|h t] eqn:Hs.
      * destruct Hin as [<-|[]]. simpl. rewrite Hc. reflexivity.
      * destruct Hin as [<-|Hin].
        -- simpl. rewrite Hc. apply IH. left. reflexivity.
        -- apply IH. right. exact Hin.
Qed.

Lemma drop_last_empty_inv (l : list string) :
  l = drop_last_empty l \/ l = (drop_last_empty l ++ [EmptyString])%list.
Proof.
  induction l as [|p r IH]; [left; reflexivity|].
  destruct p as [|c p'].
  - destruct r as [|q r']; [right; reflexivity|].
    change (drop_last_empty (EmptyString :: q :: r'))
      with (EmptyString :: drop_last_empty (q :: r')).
    destruct IH as [IH|IH]; [left | right]; cbn [app]; f_equal; exact IH.
  - change (drop_last_empty (String c p' :: r))
      with (String c p' :: drop_last_empty r).
    destruct IH as [IH|IH]; [left | right]; cbn [app]; f_equal; exact IH.
Qed.

Lemma drop_last_empty_nil (l : list string) :
  drop_last_empty l = [] -> l = [] \/ l = [EmptyString].
Proof.
  intros H. destruct (drop_last_empty_inv l) as [E|E]; rewrite H in E; auto.
Qed.

Lemma split_empty_piece (sep : ascii) (s : string) :
  Str.split sep s = [EmptyString] -> s = EmptyString.
Proof.
  intros H. rewrite <- (join_split sep s), H. reflexivity.
Qed.

(** ** The path of the root route *)

(** X3: the route [/] of [app.js] matches the paths [/] and the empty path,
    and nothing else: not [//], not [/index.html]. *)
Theorem root_route_matches_only_slash (pathname : string) :
  match_path "/" pathname
  = if String.eqb pathname "" || String.eqb pathname "/"
    then Matched [] else NoMatch.
Proof.
  unfold match_path, exec.
  change (compile "/") with (Some (@nil Segment)).
  destruct pathname as [|c r]; [reflexivity|].
  simpl Str.split. destruct (Ascii.eqb c "/") eqn:Hc.
  - apply Ascii.eqb_eq in Hc. subst c.
    destruct (drop_last_empty (Str.split "/" r)) as [|x l] eqn:Hd.
    + apply drop_last_empty_nil in Hd. destruct Hd as [Hd|Hd].
      * exfalso. exact (split_not_nil _ _ Hd).
      * apply split_empty_piece in Hd. subst r. reflexivity.
    + destruct r as [|c' r'].
      * simpl in Hd. discriminate Hd.
      * reflexivity.
  - replace (String.eqb (String c r) "/") with false.
    + destruct (Str.split "/" r); reflexivity.
    + symmetry. apply String.eqb_neq. intros E. inversion E. subst c.
      discriminate Hc.
Qed.

(** ** The path of the payment route *)

Lemma append_empty_r (s : string) : (s ++ "")%string = s.
Proof. induction s as [|c r IH]; simpl; [reflexivity | rewrite IH; reflexivity]. Qed.

Lemma lower_keeps_slash (c : ascii) :
  Ascii.eqb (Str.lower c) "/" = Ascii.eqb c "/".
Proof. destruct c as [[] [] [] [] [] [] [] []]; reflexivity. Qed.

Lemma toLowerCase_keeps_slash (s : string) :
  Str.contains "/" (Str.toLowerCase s) = Str.contains "/" s.
Proof.
  induction s as [|c r IH]; [reflexivity|].
  simpl. rewrite lower_keeps_slash, IH. reflexivity.
Qed.

(** A text equal to a slash-free literal up to case has no slash either. *)
Lemma eqb_nocase_without_slash (lit s : string) :
  Str.eqb_nocase lit s = true ->
  Str.contains "/" lit = false -> Str.contains "/" s = false.
Proof.
  unfold Str.eqb_nocase. intros H Hl. apply String.eqb_eq in H.
  rewrite <- toLowerCase_keeps_slash, <- H, toLowerCase_keeps_slash. exact Hl.
Qed.

Lemma eqb_nocase_nonempty (c : ascii) (r s : string) :
  Str.eqb_nocase (String c r) s = true ->
  exists c' r', s = String c' r'.
Proof.
  intros H. destruct s as [|c' r']; [discriminate H | eauto].
Qed.

(** X1: the payment route takes its literal segments in any letter case and
    allows one final slash: every path [/<users>/<segment>/<payment>] or
    [/<users>/<segment>/<payment>/], with [<users>] and [<payment>] any
    spelling of the two words in upper and lower case and [<segment>] a
    non-empty text without [/] that decodes to d, matches and binds [id] to
    d. *)
Theorem payment_route_ignores_case_and_final_slash
        (u seg w d : string) (trailing : bool) :
  Str.eqb_nocase "users" u = true ->
  is_segment seg = true ->
  Str.eqb_nocase "payment" w = true ->
  Js.decodeURIComponent seg = Some d ->
  match_path "/users/:id/payment"
             ("/" ++ u ++ "/" ++ seg ++ "/" ++ w ++ slash trailing)
  = Matched [("id", Js.Str d)].
Proof.
  intros Hu Hseg Hw Hdec.
  pose proof (eqb_nocase_without_slash _ _ Hu eq_refl) as Hus.
  pose proof (eqb_nocase_without_slash _ _ Hw eq_refl) as Hws.
  destruct (is_segment_inv _ Hseg) as [[cs [rs ->]] Hss].
  destruct (eqb_nocase_nonempty _ _ _ Hu) as [cu [ru ->]].
  destruct (eqb_nocase_nonempty _ _ _ Hw) as [cw [rw ->]].
  unfold match_path, exec.
  change (compile "/users/:id/payment")
    with (Some [Lit "users"; Param "id"; Lit "payment"]).
  change (Str.split "/" ("/" ++ String cu ru ++ "/" ++ String cs rs ++ "/"
                             ++ String cw rw ++ slash trailing))
    with (EmptyString ::
          Str.split "/" (String cu ru ++ String "/"
                           (String cs rs ++ String "/"
                              (String cw rw ++ slash trailing)))).
  rewrite (split_at_separator "/" _ _ Hus).
  rewrite (split_at_separator "/" _ _ Hss).
  assert (Hlast : drop_last_empty
                    (String cu ru :: String cs rs
                       :: Str.split "/" (String cw rw ++ slash trailing))
                  = [String cu ru; String cs rs; String cw rw]).
  { destruct trailing; unfold slash.
    - rewrite (split_at_separator "/" _ EmptyString Hws). reflexivity.
    - rewrite append_empty_r, (split_without_separator "/" _ Hws). reflexivity. }
  rewrite Hlast. cbn [captures]. rewrite Hu, Hw. cbn [option_map decode_params].
  rewrite Hdec. reflexivity.
Qed.

Lemma payment_route_ignores_case_and_final_slash_witness :
  Str.eqb_nocase "users" "USERS" = true /\
  is_segment "a%20b" = true /\
  Str.eqb_nocase "payment" "Payment" = true /\
  Js.decodeURIComponent "a%20b" = Some "a b" /\
  match_path "/users/:id/payment"
             ("/" ++ "USERS" ++ "/" ++ "a%20b" ++ "/" ++ "Payment" ++ slash true)
  = Matched [("id", Js.Str "a b")].
Proof.
  do 4 (split; [reflexivity|]).
  exact (payment_route_ignores_case_and_final_slash
           "USERS" "a%20b" "Payment" "a b" true
           eq_refl eq_refl eq_refl eq_refl).
Defined.

(** X2: the payment route matches nothing else: a path it binds parameters
    for is [/<users>/<segment>/<payment>] with at most one final slash, the
    two words in some letter case, the segment non-empty and free of [/], and
    the parameters are [id] alone, bound to the decoded segment.  So an empty
    id, an id with a raw [/] and a longer path never reach the handler. *)
Theorem payment_route_matches_only_its_shape
        (pathname : string) (ps : Js.Object) :
  match_path "/users/:id/payment" pathname = Matched ps ->
  exists u seg w trailing d,
    pathname = ("/" ++ u ++ "/" ++ seg ++ "/" ++ w ++ slash trailing)%string /\
    Str.eqb_nocase "users" u = true /\
    is_segment seg = true /\
    Str.eqb_nocase "payment" w = true /\
    Js.decodeURIComponent seg = Some d /\
    ps = [("id", Js.Str d)].
Proof.
  unfold match_path, exec.
  change (compile "/users/:id/payment")
    with (Some [Lit "users"; Param "id"; Lit "payment"]).
  destruct (Str.split "/" pathname) as [|first pieces] eqn:Hs; [discriminate|].
  destruct first; [|discriminate].
  destruct (drop_last_empty pieces) as [|u [|seg [|w [|x l]]]] eqn:Hd;
    cbn [captures]; try discriminate.
  - destruct (Str.eqb_nocase "users" u); discriminate.
  - destruct (Str.eqb_nocase "users" u); [|discriminate].
    destruct seg; discriminate.
  - destruct (Str.eqb_nocase "users" u) eqn:Hu; [|discriminate].
    destruct seg as [|cs rs]; [discriminate|].
    destruct (Str.eqb_nocase "payment" w) eqn:Hw; [|discriminate].
    cbn [option_map decode_params].
    destruct (Js.decodeURIComponent (String cs rs)) as [d|] eqn:Hdec;
      [|discriminate].
    cbn [option_map]. intros H. inversion H. subst ps. clear H.
    assert (Hin : In (String cs rs) (Str.split "/" pathname)).
    { rewrite Hs. right.
      destruct (drop_last_empty_inv pieces) as [E|E]; rewrite E, Hd;
        cbn; auto. }
    pose proof (split_pieces_without_separator _ _ _ Hin) as Hss.
    assert (Hshape : exists trailing,
               pieces = ([u; String cs rs; w] ++ if trailing : bool
                                                 then [EmptyString] else [])%list).
    { destruct (drop_last_empty_inv pieces) as [E|E]; rewrite Hd in E.
      - exists false. rewrite E. reflexivity.
      - exists true. exact E. }
    destruct Hshape as [trailing Hp].
    exists u, (String cs rs), w, trailing, d.
    repeat split; auto.
    + rewrite <- (join_split "/" pathname), Hs, Hp.
      destruct trailing; cbn [app Str.join slash].
      * reflexivity.
      * rewrite append_empty_r. reflexivity.
    + unfold is_segment. rewrite Hss. reflexivity.
  - destruct (Str.eqb_nocase "users" u); [|discriminate].
    destruct seg; [discriminate|].
    destruct (Str.eqb_nocase "payment" w); discriminate.
Qed.

Lemma payment_route_matches_only_its_shape_witness :
  match_path "/users/:id/payment" "/Users/42/PAYMENT/"
  = Matched [("id", Js.Str "42")] /\
  exists u seg w trailing d,
    "/Users/42/PAYMENT/"
    = ("/" ++ u ++ "/" ++ seg ++ "/" ++ w ++ slash trailing)%string /\
    Str.eqb_nocase "users" u = true /\
    is_segment seg = true /\
    Str.eqb_nocase "payment" w = true /\
    Js.decodeURIComponent seg = Some d /\
    [("id", Js.Str "42")] = [("id", Js.Str d)].
Proof.
  split; [reflexivity|].
  exact (payment_route_matches_only_its_shape
           "/Users/42/PAYMENT/" [("id", Js.Str "42")] eq_refl).
Defined.

(** ** The two routes together *)

(** No path is matched by both routes. *)
Lemma routes_disjoint (pathname : string) (ps0 : Js.Object) :
  match_path "/" pathname = Matched ps0 ->
  match_path "/users/:id/payment" pathname = NoMatch.
Proof.
  unfold match_path, exec.
  change (compile "/") with (Some (@nil Segment)).
  change (compile "/users/:id/payment")
    with (Some [Lit "users"; Param "id"; Lit "payment"]).
  destruct (Str.split "/" pathname) as [|first pieces]; [discriminate|].
  destruct first; [|discriminate].
  destruct (drop_last_empty pieces); [reflexivity | discriminate].
Qed.

Lemma root_never_fails_to_decode (pathname : string) :
  match_path "/" pathname <> DecodeError.
Proof.
  unfold match_path, exec.
  change (compile "/") with (Some (@nil Segment)).
  destruct (Str.split "/" pathname) as [|first pieces]; [discriminate|].
  destruct first; [|discriminate].
  destruct (drop_last_empty pieces); discriminate.
Qed.

(** The answer of the stack past the User router, by cases. *)
Lemma routes_cases (State : Type) (req : Request) (st : State) :
  application [Use (App.paymentRoute State); Get "/" (stateless App.root)] req st
  = (match match_path "/users/:id/payment" (path req) with
     | NoMatch => root_answer req
     | DecodeError => Final 400
     | Matched ps =>
         match method req with
         | GET | HEAD =>
             match Payment.template (Js.get ps "id")
                                    (Js.get (query req) "filter") with
             | Some text => Res.send (set_params req ps) [] text
             | None => Final 500
             end
         | OPTIONS => send_options req ["GET"; "HEAD"]
         | _ => Final 404
         end
     end, st).
Proof.
  unfold application, root_answer. cbn [handle]. unfold App.paymentRoute.
  rewrite payment_router_cases.
  destruct (match_path "/users/:id/payment" (path req)) as [|ps|] eqn:Hpay.
  - cbn [handle].
    destruct (match_path "/" (path req)) as [|ps0|] eqn:Hroot.
    + cbn [handle]. destruct (method req); reflexivity.
    + destruct (method req) eqn:Hm;
        repeat (cbn [handle handles_method]; rewrite ?Hm); reflexivity.
    + exfalso. exact (root_never_fails_to_decode _ Hroot).
  - assert (Hroot : match_path "/" (path req) = NoMatch).
    { destruct (match_path "/" (path req)) as [|ps0|] eqn:Hroot;
        [reflexivity | | exfalso; exact (root_never_fails_to_decode _ Hroot)].
      rewrite (routes_disjoint _ _ Hroot) in Hpay. discriminate Hpay. }
    destruct (method req) eqn:Hm;
      repeat (cbn [handle handles_method]; rewrite ?Hm, ?Hroot);
      rewrite ?payment_handler_cases;
      try change (Js.get (params (set_params req ps)) "id") with (Js.get ps "id");
      try change (query (set_params req ps)) with (query req);
      try destruct (Payment.template (Js.get ps "id")
                                     (Js.get (query req) "filter"));
      repeat (cbn [handle handles_method]; rewrite ?Hm, ?Hroot);
      reflexivity.
  - cbn [handle].
    destruct (match_path "/" (path req)); reflexivity.
Qed.

(** A request that reaches the routes is answered by them. *)
Lemma app_reaches_routes (State : Type) (userRoute : Middleware State)
      (req : Request) (st : State) :
  reaches_routes userRoute req st ->
  exists b st1,
    App.app userRoute req st
    = application [Use (App.paymentRoute State); Get "/" (stateless App.root)]
                  (set_body req b) st1.
Proof.
  intros (req1 & st1 & Hj & Hu).
  destruct (json_next _ _ Hj) as [b Hb]. subst req1.
  exists b, st1. apply (app_past_user _ _ _ _ _ _ Hj Hu).
Qed.

(** ** Methods *)

Lemma send_head (r rh : Request) (preset : list (string * string))
      (chunk : string) (s : Z) (hs : list (string * string)) (b : string) :
  method r = GET -> method rh = HEAD -> headers rh = headers r ->
  Res.send r preset chunk = Sent s hs b ->
  Res.send rh preset chunk = Sent s hs "".
Proof.
  unfold Res.send, Fresh.req_fresh. intros Hr Hh Hhs. rewrite Hr, Hh, Hhs.
  destruct (Fresh.fresh (headers r) (Etag.weak chunk));
    intros H; inversion H; reflexivity.
Qed.

(** X4: both routes serve HEAD as they serve GET, without the body: when a
    GET request that reaches the routes is answered by [res.send] with some
    status, headers and body, the same request sent with HEAD is answered
    with the same status and the same headers (Content-Length and ETag of the
    GET body included) and an empty body. *)
Theorem head_mirrors_get
        (State : Type) (userRoute : Middleware State)
        (req : Request) (st st' : State)
        (s : Z) (hs : list (string * string)) (b : string) :
  method req = GET ->
  reaches_routes userRoute req st ->
  reaches_routes userRoute (with_method HEAD req) st' ->
  fst (App.app userRoute req st) = Sent s hs b ->
  fst (App.app userRoute (with_method HEAD req) st') = Sent s hs "".
Proof.
  intros Hm Hr Hrh.
  destruct (app_reaches_routes State userRoute _ _ Hr) as (b1 & s1 & E1).
  destruct (app_reaches_routes State userRoute _ _ Hrh) as (b2 & s2 & E2).
  rewrite E1, E2, !routes_cases. cbn [fst]. unfold root_answer.
  change (path (set_body (with_method HEAD req) b2)) with (path req).
  change (path (set_body req b1)) with (path req).
  change (method (set_body (with_method HEAD req) b2)) with HEAD.
  change (method (set_body req b1)) with (method req).
  change (query (set_body (with_method HEAD req) b2)) with (query req).
  change (query (set_body req b1)) with (query req).
  rewrite Hm.
  destruct (match_path "/users/:id/payment" (path req)) as [|ps|].
  - destruct (match_path "/" (path req)) as [|ps0|]; try discriminate.
    apply send_head; [exact Hm | reflexivity | reflexivity].
  - destruct (Payment.template (Js.get ps "id") (Js.get (query req) "filter"));
      [|discriminate].
    apply send_head; [exact Hm | reflexivity | reflexivity].
  - discriminate.
Qed.

Lemma head_mirrors_get_witness :
  method get_42_recent = GET /\
  reaches_routes App.noUserRoutes get_42_recent tt /\
  reaches_routes App.noUserRoutes (with_method HEAD get_42_recent) tt /\
  fst (App.app App.noUserRoutes get_42_recent tt)
  = Sent 200 [("Content-Type", "text/html; charset=utf-8");
              ("Content-Length", "27");
              ("ETag", Etag.weak "User ID: 42, Filter: recent")]
         "User ID: 42, Filter: recent" /\
  fst (App.app App.noUserRoutes (with_method HEAD get_42_recent) tt)
  = Sent 200 [("Content-Type", "text/html; charset=utf-8");
              ("Content-Length", "27");
              ("ETag", Etag.weak "User ID: 42, Filter: recent")]
         "".
Proof.
  assert (R1 : reaches_routes App.noUserRoutes get_42_recent tt)
    by (exists get_42_recent, tt; split; reflexivity).
  assert (R2 : reaches_routes App.noUserRoutes (with_method HEAD get_42_recent) tt)
    by (exists (with_method HEAD get_42_recent), tt; split; reflexivity).
  assert (H : fst (App.app App.noUserRoutes get_42_recent tt)
              = Sent 200 [("Content-Type", "text/html; charset=utf-8");
                          ("Content-Length", "27");
                          ("ETag", Etag.weak "User ID: 42, Filter: recent")]
                     "User ID: 42, Filter: recent")
    by (vm_compute; reflexivity).
  split; [reflexivity|]. split; [exact R1|]. split; [exact R2|].
  split; [exact H|].
  exact (head_mirrors_get unit App.noUserRoutes get_42_recent tt tt
           200 _ _ eq_refl R1 R2 H).
Defined.

(** X5: an OPTIONS request for a path one of the two routes matches is
    answered by the router itself, not by a handler: status 200, the header
    [Allow: GET,HEAD] and the body [GET,HEAD]. *)
Theorem options_lists_get_and_head
        (State : Type) (userRoute : Middleware State)
        (req : Request) (st : State) (ps : Js.Object) :
  method req = OPTIONS ->
  match_path "/users/:id/payment" (path req) = Matched ps
  \/ match_path "/" (path req) = Matched ps ->
  reaches_routes userRoute req st ->
  fst (App.app userRoute req st)
  = Sent 200 [("Allow", "GET,HEAD");
              ("Content-Type", "text/html; charset=utf-8");
              ("Content-Length", "8");
              ("ETag", Etag.weak "GET,HEAD")]
         "GET,HEAD".
Proof.
  intros Hm Hmatch Hr.
  destruct (app_reaches_routes State userRoute _ _ Hr) as (b1 & s1 & E1).
  rewrite E1, routes_cases. cbn [fst]. unfold root_answer.
  change (path (set_body req b1)) with (path req).
  change (method (set_body req b1)) with (method req).
  rewrite Hm.
  assert (Hsend : send_options (set_body req b1) ["GET"; "HEAD"]
                  = Sent 200 [("Allow", "GET,HEAD");
                              ("Content-Type", "text/html; charset=utf-8");
                              ("Content-Length", "8");
                              ("ETag", Etag.weak "GET,HEAD")]
                         "GET,HEAD").
  { unfold send_options. change (Str.join "," ["GET"; "HEAD"]) with "GET,HEAD".
    rewrite send_stale.
    - change (method (set_body req b1)) with (method req). rewrite Hm.
      reflexivity.
    - unfold Fresh.req_fresh.
      change (method (set_body req b1)) with (method req). rewrite Hm.
      reflexivity. }
  destruct Hmatch as [Hp|Hroot].
  - rewrite Hp. exact Hsend.
  - rewrite (routes_disjoint _ _ Hroot), Hroot. exact Hsend.
Qed.

Lemma options_lists_get_and_head_witness :
  method (with_method OPTIONS get_42) = OPTIONS /\
  (match_path "/users/:id/payment" (path (with_method OPTIONS get_42))
   = Matched [("id", Js.Str "42")]
   \/ match_path "/" (path (with_method OPTIONS get_42))
      = Matched [("id", Js.Str "42")]) /\
  reaches_routes App.noUserRoutes (with_method OPTIONS get_42) tt /\
  fst (App.app App.noUserRoutes (with_method OPTIONS get_42) tt)
  = Sent 200 [("Allow", "GET,HEAD");
              ("Content-Type", "text/html; charset=utf-8");
              ("Content-Length", "8");
              ("ETag", Etag.weak "GET,HEAD")]
         "GET,HEAD".
Proof.
  assert (R : reaches_routes App.noUserRoutes (with_method OPTIONS get_42) tt)
    by (exists (with_method OPTIONS get_42), tt; split; reflexivity).
  split; [reflexivity|]. split; [left; reflexivity|]. split; [exact R|].
  exact (options_lists_get_and_head unit App.noUserRoutes
           (with_method OPTIONS get_42) tt [("id", Js.Str "42")]
           eq_refl (or_introl eq_refl) R).
Defined.

(** X6: no route serves POST, PUT, PATCH or DELETE: such a request that
    reaches the routes is answered by the final handler, with 404 on every
    path, or with 400 when the path has the shape of the payment route and
    its id does not decode. *)
Theorem unserved_methods_are_not_found
        (State : Type) (userRoute : Middleware State)
        (req : Request) (st : State) :
  unserved (method req) = true ->
  reaches_routes userRoute req st ->
  fst (App.app userRoute req st)
  = Final (match match_path "/users/:id/payment" (path req) with
           | DecodeError => 400
           | _ => 404
           end).
Proof.
  intros Hm Hr.
  destruct (app_reaches_routes State userRoute _ _ Hr) as (b1 & s1 & E1).
  rewrite E1, routes_cases. cbn [fst]. unfold root_answer.
  change (path (set_body req b1)) with (path req).
  change (method (set_body req b1)) with (method req).
  destruct (match_path "/users/:id/payment" (path req));
    destruct (match_path "/" (path req));
    destruct (method req); try discriminate Hm; reflexivity.
Qed.

Lemma unserved_methods_are_not_found_witness :
  unserved (method (with_method POST get_42_recent)) = true /\
  reaches_routes App.noUserRoutes (with_method POST get_42_recent) tt /\
  fst (App.app App.noUserRoutes (with_method POST get_42_recent) tt)
  = Final (match match_path "/users/:id/payment"
                            (path (with_method POST get_42_recent)) with
           | DecodeError => 400
           | _ => 404
           end).
Proof.
  assert (R : reaches_routes App.noUserRoutes (with_method POST get_42_recent) tt)
    by (exists (with_method POST get_42_recent), tt; split; reflexivity).
  split; [reflexivity|]. split; [exact R|].
  exact (unserved_methods_are_not_found unit App.noUserRoutes
           (with_method POST get_42_recent) tt eq_refl R).
Defined.

(** ** Errors before the handlers *)

Lemma payment_path_undecodable (seg : string) :
  is_segment seg = true ->
  Js.decodeURIComponent seg = None ->
  match_path "/users/:id/payment" ("/users/" ++ seg ++ "/payment") = DecodeError.
Proof.
  intros Hseg Hdec. destruct (is_segment_inv _ Hseg) as [[c [r ->]] Hslash].
  unfold match_path, exec.
  change (compile "/users/:id/payment")
    with (Some [Lit "users"; Param "id"; Lit "payment"]).
  change (Str.split "/" ("/users/" ++ String c r ++ "/payment"))
    with (EmptyString :: "users"
            :: Str.split "/" (String c r ++ String "/" "payment")).
  rewrite (split_at_separator "/" (String c r) "payment" Hslash).
  cbn -[Js.decodeURIComponent]. rewrite Hdec. reflexivity.
Qed.

(** X7: an id that does not percent-decode is refused before the method is
    looked at: a request of any method, GET or not, for
    [/users/<segment>/payment] whose segment fails [decodeURIComponent] is
    answered by the final handler with 400, and the handler does not run. *)
Theorem undecodable_id_is_400_for_every_method
        (State : Type) (userRoute : Middleware State)
        (req : Request) (st : State) (seg : string) :
  path req = ("/users/" ++ seg ++ "/payment")%string ->
  is_segment seg = true ->
  Js.decodeURIComponent seg = None ->
  reaches_routes userRoute req st ->
  fst (App.app userRoute req st) = Final 400.
Proof.
  intros Hp Hseg Hdec Hr.
  destruct (app_reaches_routes State userRoute _ _ Hr) as (b1 & s1 & E1).
  rewrite E1, routes_cases. cbn [fst].
  change (path (set_body req b1)) with (path req).
  rewrite Hp, (payment_path_undecodable _ Hseg Hdec). reflexivity.
Qed.

Lemma undecodable_id_is_400_for_every_method_witness :
  path delete_bad_escape = ("/users/" ++ "100%" ++ "/payment")%string /\
  is_segment "100%" = true /\
  Js.decodeURIComponent "100%" = None /\
  reaches_routes App.noUserRoutes delete_bad_escape tt /\
  fst (App.app App.noUserRoutes delete_bad_escape tt) = Final 400.
Proof.
  assert (R : reaches_routes App.noUserRoutes delete_bad_escape tt)
    by (exists delete_bad_escape, tt; split; reflexivity).
  do 3 (split; [reflexivity|]). split; [exact R|].
  exact (undecodable_id_is_400_for_every_method unit App.noUserRoutes
           delete_bad_escape tt "100%" eq_refl eq_refl eq_refl R).
Defined.

(** X9: the body parser runs in strict mode on every request: a JSON body
    whose first character after white space opens neither an object nor an
    array is a syntax error even when it is valid JSON ([1], [null], a
    string), and the request, whatever its method and path, is answered 400
    with the process state untouched. *)
Theorem scalar_json_body_is_400
        (State : Type) (userRoute : Middleware State)
        (req : Request) (st : State) (text : string) (c : ascii) :
  entity req = Text text ->
  firstchar text = Some c ->
  Ascii.eqb c "{" || Ascii.eqb c "[" = false ->
  App.app userRoute req st = (Final 400, st).
Proof.
  intros He Hc Hb.
  assert (Hj : Express.json req = Failed (Some 400%Z)).
  { unfold Express.json, parse. rewrite He.
    destruct text as [|x r]; [discriminate Hc|].
    rewrite Hc, Hb. reflexivity. }
  unfold App.app, App.stack, application. cbn [handle].
  unfold stateless at 1. rewrite Hj.
  destruct (match_path "/" (path req)); reflexivity.
Qed.

Lemma scalar_json_body_is_400_witness :
  entity root_with_scalar_json = Text " 1" /\
  firstchar " 1" = Some "1"%char /\
  Ascii.eqb "1" "{" || Ascii.eqb "1" "[" = false /\
  Json.parses " 1" = true /\
  App.app App.noUserRoutes root_with_scalar_json tt = (Final 400, tt).
Proof.
  do 4 (split; [reflexivity|]).
  exact (scalar_json_body_is_400 unit App.noUserRoutes root_with_scalar_json tt
           " 1" "1"%char eq_refl eq_refl eq_refl).
Defined.



Lemma app_json_failed_witness :
  Express.json post_too_large = Failed (Some 413%Z) /\
  App.app greedyUserRoutes post_too_large 7 = (Final 413, 7).
Proof.
  split; [reflexivity|].
  exact (app_json_failed nat greedyUserRoutes post_too_large 7 413 eq_refl).
Defined.

(** ** What the template echoes *)

Lemma ToString_strings (fs : list string) :
  Js.ToString (Js.Arr (map Js.Str fs)) = Some (Str.join "," fs).
Proof.
  cbn [Js.ToString].
  match goal with
  | |- option_map _ (?texts _) = _ =>
      assert (H : forall l, texts (map Js.Str l) = Some l)
  end.
  { induction l as [|f r IH]; [reflexivity|].
    cbn [map]. rewrite IH. reflexivity. }
  rewrite H. reflexivity.
Qed.

(** X11: a [filter] parameter given several times reaches the handler as an
    array, and the template renders an array of strings as its items joined
    by commas: the body is [User ID: <d>, Filter: <f1>,<f2>,...]; with no item
    at all the filter part is empty. *)
Theorem repeated_filter_is_comma_joined
        (State : Type) (userRoute : Middleware State)
        (req : Request) (st st1 : State) (id d : string) (fs : list string) :
  plain_get req ("/users/" ++ id ++ "/payment") ->
  is_segment id = true ->
  Js.decodeURIComponent id = Some d ->
  Js.get (query req) "filter" = Js.Arr (map Js.Str fs) ->
  passes userRoute req st st1 ->
  status (fst (App.app userRoute req st)) = 200%Z /\
  sent_body (fst (App.app userRoute req st))
  = Some ("User ID: " ++ d ++ ", Filter: " ++ Str.join "," fs)%string.
Proof.
  intros Hplain Hseg Hdec Hf Hu.
  rewrite (plain_get_payment State userRoute req st st1 id d (Str.join "," fs)
             Hplain Hseg Hdec);
    [split; reflexivity | rewrite Hf; apply ToString_strings | exact Hu].
Qed.

Lemma repeated_filter_is_comma_joined_witness :
  plain_get get_42_three_filters ("/users/" ++ "42" ++ "/payment") /\
  is_segment "42" = true /\
  Js.decodeURIComponent "42" = Some "42" /\
  Js.get (query get_42_three_filters) "filter"
  = Js.Arr (map Js.Str ["recent"; "paid"; ""]) /\
  passes App.noUserRoutes get_42_three_filters tt tt /\
  status (fst (App.app App.noUserRoutes get_42_three_filters tt)) = 200%Z /\
  sent_body (fst (App.app App.noUserRoutes get_42_three_filters tt))
  = Some "User ID: 42, Filter: recent,paid,".
Proof.
  assert (Hp : plain_get get_42_three_filters ("/users/" ++ "42" ++ "/payment"))
    by (repeat split; reflexivity).
  assert (Hu : passes App.noUserRoutes get_42_three_filters tt tt) by reflexivity.
  do 5 (split; [first [exact Hp | exact Hu | reflexivity]|]).
  exact (repeated_filter_is_comma_joined unit App.noUserRoutes
           get_42_three_filters tt tt "42" "42" ["recent"; "paid"; ""]
           Hp eq_refl eq_refl eq_refl Hu).
Defined.

(** X12: an id without [%] is echoed as it stands in the path: for every
    non-empty id free of [/] and [%], a plain GET request to
    [/users/<id>/payment] that the User router passes on and whose filter
    converts to a string is answered 200 with the body
    [User ID: <id>, Filter: <text>], [<text>] being the text the conversion
    gives the value of the query parameter. *)
Theorem plain_id_is_echoed_verbatim
        (State : Type) (userRoute : Middleware State)
        (req : Request) (st st1 : State) (id text : string) :
  plain_get req ("/users/" ++ id ++ "/payment") ->
  is_segment id = true ->
  Str.contains "%" id = false ->
  Js.ToString (Js.get (query req) "filter") = Some text ->
  passes userRoute req st st1 ->
  status (fst (App.app userRoute req st)) = 200%Z /\
  sent_body (fst (App.app userRoute req st))
  = Some ("User ID: " ++ id ++ ", Filter: " ++ text)%string.
Proof.
  intros Hplain Hseg Hpc Hf Hu.
  rewrite (plain_get_payment State userRoute req st st1 id id text Hplain Hseg
             (decodeURIComponent_unescaped id Hpc) Hf Hu).
  split; reflexivity.
Qed.

Lemma plain_id_is_echoed_verbatim_witness :
  plain_get get_plain_id_object_filter ("/users/" ++ "inv-2024_07.a" ++ "/payment") /\
  is_segment "inv-2024_07.a" = true /\
  Str.contains "%" "inv-2024_07.a" = false /\
  Js.ToString (Js.get (query get_plain_id_object_filter) "filter")
  = Some "[object Object]" /\
  passes App.noUserRoutes get_plain_id_object_filter tt tt /\
  status (fst (App.app App.noUserRoutes get_plain_id_object_filter tt)) = 200%Z /\
  sent_body (fst (App.app App.noUserRoutes get_plain_id_object_filter tt))
  = Some ("User ID: " ++ "inv-2024_07.a" ++ ", Filter: " ++ "[object Object]")%string.
Proof.
  assert (Hp : plain_get get_plain_id_object_filter
                         ("/users/" ++ "inv-2024_07.a" ++ "/payment"))
    by (repeat split; reflexivity).
  assert (Hu : passes App.noUserRoutes get_plain_id_object_filter tt tt)
    by reflexivity.
  do 5 (split; [first [exact Hp | exact Hu | reflexivity]|]).
  exact (plain_id_is_echoed_verbatim unit App.noUserRoutes
           get_plain_id_object_filter tt tt "inv-2024_07.a" "[object Object]"
           Hp eq_refl eq_refl eq_refl Hu).
Defined.

(** ** Entity tags and freshness *)

Lemma append_assoc (a b c : string) :
  ((a ++ b) ++ c)%string = (a ++ (b ++ c))%string.
Proof. induction a as [|x a IH]; simpl; [reflexivity | rewrite IH; reflexivity]. Qed.

Lemma contains_append (c : ascii) (a b : string) :
  Str.contains c (a ++ b) = Str.contains c a || Str.contains c b.
Proof.
  induction a as [|x a IH]; simpl; [reflexivity|].
  rewrite IH, orb_assoc. reflexivity.
Qed.

Lemma contains_substring (c : ascii) (s : string) :
  Str.contains c s = false ->
  forall n m, Str.contains c (String.substring n m s) = false.
Proof.
  induction s as [|x s IH]; intros H n m.
  - destruct n, m; reflexivity.
  - simpl in H. apply orb_false_iff in H. destruct H as [Hx Hs].
    destruct n as [|n]; [destruct m as [|m]|]; simpl.
    + reflexivity.
    + rewrite Hx. apply IH. exact Hs.
    + apply IH. exact Hs.
Qed.

Lemma hexdigit_is_no_comma (d : Z) :
  (0 <= d < 16)%Z -> Ascii.eqb (Etag.hexdigit d) "," = false.
Proof.
  intros H.
  assert (E : (d = 0 \/ d = 1 \/ d = 2 \/ d = 3 \/ d = 4 \/ d = 5 \/ d = 6
               \/ d = 7 \/ d = 8 \/ d = 9 \/ d = 10 \/ d = 11 \/ d = 12
               \/ d = 13 \/ d = 14 \/ d = 15)%Z) by lia.
  repeat (destruct E as [->|E]; [reflexivity|]). subst d. reflexivity.
Qed.

Lemma hex_digits_without_comma (fuel : nat) :
  forall (n : Z) (acc : string),
  Str.contains "," acc = false ->
  Str.contains "," (Etag.hex_digits fuel n acc) = false.
Proof.
  induction fuel as [|f IH]; intros n acc Hacc; [exact Hacc|].
  cbn [Etag.hex_digits].
  assert (Hacc' : Str.contains "," (String (Etag.hexdigit (n mod 16)) acc) = false).
  { cbn [Str.contains]. rewrite hexdigit_is_no_comma, Hacc; [reflexivity|].
    apply Z.mod_pos_bound. lia. }
  destruct (n / 16 =? 0)%Z; [exact Hacc' | apply IH; exact Hacc'].
Qed.

Lemma b64_is_no_comma (i : Z) : Ascii.eqb (Etag.b64 i) "," = false.
Proof.
  unfold Etag.b64. generalize (Z.to_nat i). intros n.
  do 65 (destruct n as [|n]; [reflexivity|]). reflexivity.
Qed.

Lemma base64_without_comma (fuel : nat) :
  forall l : list Z, Str.contains "," (Etag.base64 fuel l) = false.
Proof.
  induction fuel as [|f IH]; intros l; [reflexivity|].
  destruct l as [|a [|b [|c r]]]; cbn [Etag.base64 Str.contains];
    rewrite ?b64_is_no_comma, ?IH; reflexivity.
Qed.

(** An entity tag is one token of an [If-None-Match] list: it has no comma. *)
Lemma weak_without_comma (chunk : string) :
  Str.contains "," (Etag.weak chunk) = false.
Proof.
  unfold Etag.weak, Etag.entitytag, Etag.hex.
  rewrite !contains_append.
  rewrite hex_digits_without_comma by reflexivity.
  rewrite contains_substring by apply base64_without_comma.
  reflexivity.
Qed.

Lemma rtrim_kept_end (p : ascii -> bool) (q : ascii) (a : string) :
  p q = false ->
  Str.rtrim p (a ++ String q EmptyString) = (a ++ String q EmptyString)%string.
Proof.
  intros Hq. induction a as [|x a IH].
  - simpl. rewrite Hq. reflexivity.
  - change (Str.rtrim p (String x a ++ String q EmptyString))
      with (match Str.rtrim p (a ++ String q EmptyString) with
            | EmptyString => if p x then EmptyString else String x EmptyString
            | r' => String x r'
            end).
    rewrite IH. destruct a; reflexivity.
Qed.

Lemma trim_weak (chunk : string) :
  Str.trim Fresh.is_sp (Etag.weak chunk) = Etag.weak chunk.
Proof.
  unfold Str.trim.
  assert (Hl : Str.ltrim Fresh.is_sp (Etag.weak chunk) = Etag.weak chunk)
    by (unfold Etag.weak; reflexivity).
  rewrite Hl. unfold Etag.weak, Etag.entitytag.
  set (h := Etag.hex (String.length chunk)).
  set (g := String.substring 0 27
              (Etag.base64 (List.length (Etag.sha1 (Etag.bytes chunk)))
                           (Etag.sha1 (Etag.bytes chunk)))).
  replace ("W/" ++ Etag.quote ++ h ++ "-" ++ g ++ Etag.quote)%string
    with (("W/" ++ Etag.quote ++ h ++ "-" ++ g)
            ++ String "034"%char EmptyString)%string
    by (rewrite !append_assoc; reflexivity).
  apply rtrim_kept_end. reflexivity.
Qed.

(** The token list of a request that sends back an entity tag, alone. *)
Lemma parseTokenList_of_weak (chunk : string) :
  Fresh.parseTokenList (Etag.weak chunk) = [Etag.weak chunk].
Proof.
  unfold Fresh.parseTokenList.
  rewrite (split_without_separator "," _ (weak_without_comma chunk)).
  cbn [map]. rewrite trim_weak. reflexivity.
Qed.

Lemma header_skips (name other value : string) (hs : list (string * string)) :
  String.eqb other name = false ->
  header ((other, value) :: hs) name = header hs name.
Proof. intros H. cbn [header]. rewrite H. reflexivity. Qed.

(** A request that sends back the entity tag of the body it would get, and
    asks for no reload, is fresh. *)
Lemma echoed_tag_is_fresh (hs : list (string * string)) (chunk : string) :
  Fresh.truthy (header hs "if-modified-since") = false ->
  header hs "cache-control" = None ->
  Fresh.fresh (("if-none-match", Etag.weak chunk) :: hs) (Etag.weak chunk) = true.
Proof.
  intros Hms Hcc. unfold Fresh.fresh. cbv zeta.
  rewrite (header_skips "if-modified-since" "if-none-match" _ hs eq_refl).
  rewrite (header_skips "cache-control" "if-none-match" _ hs eq_refl).
  rewrite Hms, Hcc. cbn [header String.eqb Ascii.eqb Bool.eqb].
  rewrite parseTokenList_of_weak. cbn [existsb].
  rewrite String.eqb_refl.
  unfold Etag.weak at 1 2. cbn [append Fresh.truthy negb andb orb String.eqb Ascii.eqb Bool.eqb].
  reflexivity.
Qed.

Lemma send_then_revalidate (r r2 : Request) (chunk : string)
      (hs : list (string * string)) (b e : string) :
  handles_method (method r) = true ->
  Fresh.unconditional r = true ->
  header (headers r) "cache-control" = None ->
  Res.send r [] chunk = Sent 200 hs b ->
  header hs "ETag" = Some e ->
  method r2 = method r ->
  headers r2 = ("if-none-match", e) :: headers r ->
  Res.send r2 [] chunk = Sent 304 [("ETag", e)] "".
Proof.
  intros Hm Hu Hcc Hsend He Hm2 Hh2.
  rewrite send_stale in Hsend by (apply unconditional_never_fresh; exact Hu).
  inversion Hsend as [[Hhs Hb]]. subst hs. cbn in He. inversion He. subst e.
  rewrite send_fresh; [reflexivity|].
  unfold Fresh.req_fresh. rewrite Hm2, Hh2.
  unfold Fresh.unconditional in Hu. apply andb_true_iff in Hu.
  destruct Hu as [Hms _]. apply negb_true_iff in Hms.
  destruct (method r); try discriminate Hm;
    apply echoed_tag_is_fresh; assumption.
Qed.

(** X13: the entity tag of a response revalidates it: when a GET or HEAD
    request without validators and without Cache-Control is answered 200 by
    one of the routes, the same request sent again with [If-None-Match] set to
    the [ETag] of that response is answered 304 with that tag and an empty
    body. *)
Theorem echoed_etag_gets_304
        (State : Type) (userRoute : Middleware State)
        (req : Request) (st st' : State)
        (hs : list (string * string)) (b e : string) :
  handles_method (method req) = true ->
  Fresh.unconditional req = true ->
  header (headers req) "cache-control" = None ->
  reaches_routes userRoute req st ->
  fst (App.app userRoute req st) = Sent 200 hs b ->
  header hs "ETag" = Some e ->
  reaches_routes userRoute (with_header "if-none-match" e req) st' ->
  fst (App.app userRoute (with_header "if-none-match" e req) st')
  = Sent 304 [("ETag", e)] "".
Proof.
  intros Hm Hu Hcc Hr Hresp He Hr2.
  destruct (app_reaches_routes State userRoute _ _ Hr) as (b1 & s1 & E1).
  destruct (app_reaches_routes State userRoute _ _ Hr2) as (b2 & s2 & E2).
  rewrite E1, routes_cases in Hresp. rewrite E2, routes_cases.
  cbn [fst] in *. unfold root_answer in *.
  change (path (set_body (with_header "if-none-match" e req) b2))
    with (path req).
  change (method (set_body (with_header "if-none-match" e req) b2))
    with (method req).
  change (query (set_body (with_header "if-none-match" e req) b2))
    with (query req).
  change (path (set_body req b1)) with (path req) in Hresp.
  change (method (set_body req b1)) with (method req) in Hresp.
  change (query (set_body req b1)) with (query req) in Hresp.
  destruct (match_path "/users/:id/payment" (path req)) as [|ps|];
    [destruct (match_path "/" (path req)) as [|ps0|] | |];
    try discriminate Hresp;
    destruct (method req) eqn:Hmeth; try discriminate Hm;
    try (destruct (Payment.template (Js.get ps "id")
                                    (Js.get (query req) "filter"));
         [|discriminate Hresp]);
    (eapply send_then_revalidate;
     [ | | | exact Hresp | exact He | reflexivity | reflexivity ];
     [ change (handles_method (method req) = true); rewrite Hmeth; reflexivity
     | exact Hu | exact Hcc ]).
Qed.

Lemma echoed_etag_gets_304_witness :
  handles_method (method get_42_recent) = true /\
  Fresh.unconditional get_42_recent = true /\
  header (headers get_42_recent) "cache-control" = None /\
  reaches_routes App.noUserRoutes get_42_recent tt /\
  fst (App.app App.noUserRoutes get_42_recent tt)
  = Sent 200 [("Content-Type", "text/html; charset=utf-8");
              ("Content-Length", "27");
              ("ETag", Etag.weak "User ID: 42, Filter: recent")]
         "User ID: 42, Filter: recent" /\
  header [("Content-Type", "text/html; charset=utf-8");
          ("Content-Length", "27");
          ("ETag", Etag.weak "User ID: 42, Filter: recent")] "ETag"
  = Some (Etag.weak "User ID: 42, Filter: recent") /\
  reaches_routes App.noUserRoutes
    (with_header "if-none-match" (Etag.weak "User ID: 42, Filter: recent")
                 get_42_recent) tt /\
  fst (App.app App.noUserRoutes
         (with_header "if-none-match" (Etag.weak "User ID: 42, Filter: recent")
                      get_42_recent) tt)
  = Sent 304 [("ETag", Etag.weak "User ID: 42, Filter: recent")] "".
Proof.
  assert (R1 : reaches_routes App.noUserRoutes get_42_recent tt)
    by (exists get_42_recent, tt; split; reflexivity).
  assert (R2 : reaches_routes App.noUserRoutes
                 (with_header "if-none-match"
                    (Etag.weak "User ID: 42, Filter: recent") get_42_recent) tt)
    by (eexists _, tt; split; reflexivity).
  assert (H : fst (App.app App.noUserRoutes get_42_recent tt)
              = Sent 200 [("Content-Type", "text/html; charset=utf-8");
                          ("Content-Length", "27");
                          ("ETag", Etag.weak "User ID: 42, Filter: recent")]
                     "User ID: 42, Filter: recent")
    by (vm_compute; reflexivity).
  do 3 (split; [reflexivity|]). split; [exact R1|]. split; [exact H|].
  split; [reflexivity|]. split; [exact R2|].
  exact (echoed_etag_gets_304 unit App.noUserRoutes get_42_recent tt tt
           _ _ _ eq_refl eq_refl eq_refl R1 H eq_refl R2).
Defined.

Lemma no_cache_never_fresh (req : Request) (cc etag : string) :
  header (headers req) "cache-control" = Some cc ->
  Fresh.no_cache cc = true ->
  Fresh.req_fresh req etag = false.
Proof.
  intros Hcc Hnc. unfold Fresh.req_fresh, Fresh.fresh. cbv zeta. rewrite Hcc.
  assert (Ht : Fresh.truthy (Some cc) = true)
    by (destruct cc; [discriminate Hnc | reflexivity]).
  rewrite Ht, Hnc.
  destruct (method req); try reflexivity;
    destruct (negb (Fresh.truthy (header (headers req) "if-modified-since"))
              && negb (Fresh.truthy (header (headers req) "if-none-match")));
    reflexivity.
Qed.

Lemma send_status (req : Request) (preset : list (string * string))
      (chunk : string) :
  status (Res.send req preset chunk)
  = if Fresh.req_fresh req (Etag.weak chunk) then 304%Z else 200%Z.
Proof.
  unfold Res.send. destruct (Fresh.req_fresh req (Etag.weak chunk)); reflexivity.
Qed.

(** X14: a request that asks for a reload is never answered 304: whatever
    validators it carries, a request with a [Cache-Control] header that lists
    [no-cache] and that reaches the routes gets a full answer (or the final
    handler's). *)
Theorem no_cache_request_is_never_304
        (State : Type) (userRoute : Middleware State)
        (req : Request) (st : State) (cc : string) :
  header (headers req) "cache-control" = Some cc ->
  Fresh.no_cache cc = true ->
  reaches_routes userRoute req st ->
  status (fst (App.app userRoute req st)) <> 304%Z.
Proof.
  intros Hcc Hnc Hr.
  destruct (app_reaches_routes State userRoute _ _ Hr) as (b1 & s1 & E1).
  rewrite E1, routes_cases. cbn [fst]. unfold root_answer, send_options.
  assert (Hs : forall ps preset chunk,
             status (Res.send (set_params (set_body req b1) ps) preset chunk)
             = 200%Z).
  { intros ps preset chunk. rewrite send_status.
    rewrite (no_cache_never_fresh _ cc); [reflexivity | exact Hcc | exact Hnc]. }
  assert (Hs' : forall preset chunk,
             status (Res.send (set_body req b1) preset chunk) = 200%Z).
  { intros preset chunk. rewrite send_status.
    rewrite (no_cache_never_fresh _ cc); [reflexivity | exact Hcc | exact Hnc]. }
  destruct (match_path "/users/:id/payment" (path (set_body req b1)));
    [destruct (match_path "/" (path (set_body req b1))) | |];
    destruct (method (set_body req b1));
    try destruct (Payment.template _ _);
    rewrite ?Hs, ?Hs'; cbn [status]; discriminate.
Qed.

Lemma no_cache_request_is_never_304_witness :
  header (headers reload_root) "cache-control" = Some "max-age=0, no-cache" /\
  Fresh.no_cache "max-age=0, no-cache" = true /\
  reaches_routes App.noUserRoutes reload_root tt /\
  status (fst (App.app App.noUserRoutes reload_root tt)) <> 304%Z.
Proof.
  assert (R : reaches_routes App.noUserRoutes reload_root tt)
    by (exists reload_root, tt; split; reflexivity).
  do 2 (split; [reflexivity|]). split; [exact R|].
  exact (no_cache_request_is_never_304 unit App.noUserRoutes reload_root tt
           "max-age=0, no-cache" eq_refl eq_refl R).
Defined.

Lemma send_status_cases (req : Request) (preset : list (string * string))
      (chunk : string) :
  status (Res.send req preset chunk) = 200%Z
  \/ (status (Res.send req preset chunk) = 304%Z
      /\ handles_method (method req) = true).
Proof.
  rewrite send_status. unfold Fresh.req_fresh.
  destruct (method req); auto;
    destruct (Fresh.fresh (headers req) (Etag.weak chunk)); auto.
Qed.

Lemma payment_match_binds_id (pathname : string) (ps : Js.Object) :
  match_path "/users/:id/payment" pathname = Matched ps ->
  exists d, ps = [("id", Js.Str d)].
Proof.
  unfold match_path, exec.
  change (compile "/users/:id/payment")
    with (Some [Lit "users"; Param "id"; Lit "payment"]).
  destruct (Str.split "/" pathname) as [|first pieces]; [discriminate|].
  destruct first; [|discriminate].
  destruct (drop_last_empty pieces) as [|u [|seg [|w [|x l]]]];
    cbn [captures]; try discriminate;
    destruct (Str.eqb_nocase "users" u); try discriminate;
    destruct seg as [|cs rs]; try discriminate;
    destruct (Str.eqb_nocase "payment" w); try discriminate.
  cbn [option_map decode_params].
  destruct (Js.decodeURIComponent (String cs rs)) as [d|]; [|discriminate].
  cbn [option_map]. intros H. inversion H. exists d. reflexivity.
Qed.

(** The template of a matched request throws only on its filter. *)
Lemma template_throws_on_filter (pathname : string) (ps : Js.Object)
      (filter : Js.Value) :
  match_path "/users/:id/payment" pathname = Matched ps ->
  Payment.template (Js.get ps "id") filter = None ->
  Js.ToString filter = None.
Proof.
  intros Hp. destruct (payment_match_binds_id _ _ Hp) as [d ->].
  change (Js.get [("id", Js.Str d)] "id") with (Js.Str d).
  unfold Payment.template. cbn [Js.ToString].
  destruct (Js.ToString filter); [discriminate | reflexivity].
Qed.

(** X15: the routes know five statuses: a request that gets past the body
    parser and the User router is answered 200, 304, 400, 404 or 500 and
    nothing else (no 201, no 204); 304 and 500 go to GET and HEAD only, and
    500 only to a request for the payment route whose filter does not convert
    to a string. *)
Theorem routes_answer_with_five_statuses
        (State : Type) (userRoute : Middleware State)
        (req : Request) (st : State) :
  reaches_routes userRoute req st ->
  (status (fst (App.app userRoute req st)) = 200%Z
   \/ status (fst (App.app userRoute req st)) = 304%Z
   \/ status (fst (App.app userRoute req st)) = 400%Z
   \/ status (fst (App.app userRoute req st)) = 404%Z
   \/ status (fst (App.app userRoute req st)) = 500%Z) /\
  (status (fst (App.app userRoute req st)) = 304%Z ->
   handles_method (method req) = true) /\
  (status (fst (App.app userRoute req st)) = 500%Z ->
   handles_method (method req) = true /\
   (exists ps, match_path "/users/:id/payment" (path req) = Matched ps) /\
   Js.ToString (Js.get (query req) "filter") = None).
Proof.
  intros Hr.
  destruct (app_reaches_routes State userRoute _ _ Hr) as (b1 & s1 & E1).
  rewrite E1, routes_cases. cbn [fst]. unfold root_answer, send_options.
  change (method (set_body req b1)) with (method req).
  change (path (set_body req b1)) with (path req).
  change (query (set_body req b1)) with (query req).
  destruct (match_path "/users/:id/payment" (path req)) as [|ps|] eqn:Hpay;
    [destruct (match_path "/" (path req)) | |];
    destruct (method req) eqn:Hm;
    try (destruct (Payment.template (Js.get ps "id")
                                    (Js.get (query req) "filter")) eqn:Ht);
    try (match goal with
         | |- context [Res.send ?r ?p ?c] =>
             destruct (send_status_cases r p c) as [H|[H Hh]];
             [ rewrite H
             | rewrite H; change (handles_method (method req) = true) in Hh;
               rewrite Hm in Hh ]
         end);
    cbn [status];
    (split; [auto 6 | split; [first [discriminate | intros _; assumption]|]]);
    first [ discriminate
          | intros _; split; [reflexivity|]; split; [exists ps; reflexivity|];
            exact (template_throws_on_filter _ _ _ Hpay Ht) ].
Qed.

Lemma routes_answer_with_five_statuses_witness :
  reaches_routes App.noUserRoutes
                 (payment_request "42" filter_shadowing_toString) tt /\
  (status (fst (App.app App.noUserRoutes
                        (payment_request "42" filter_shadowing_toString) tt))
   = 200%Z
   \/ status (fst (App.app App.noUserRoutes
                           (payment_request "42" filter_shadowing_toString) tt))
      = 304%Z
   \/ status (fst (App.app App.noUserRoutes
                           (payment_request "42" filter_shadowing_toString) tt))
      = 400%Z
   \/ status (fst (App.app App.noUserRoutes
                           (payment_request "42" filter_shadowing_toString) tt))
      = 404%Z
   \/ status (fst (App.app App.noUserRoutes
                           (payment_request "42" filter_shadowing_toString) tt))
      = 500%Z) /\
  (status (fst (App.app App.noUserRoutes
                        (payment_request "42" filter_shadowing_toString) tt))
   = 304%Z ->
   handles_method (method (payment_request "42" filter_shadowing_toString))
   = true) /\
  (status (fst (App.app App.noUserRoutes
                        (payment_request "42" filter_shadowing_toString) tt))
   = 500%Z ->
   handles_method (method (payment_request "42" filter_shadowing_toString))
   = true /\
   (exists ps, match_path "/users/:id/payment"
                          (path (payment_request "42" filter_shadowing_toString))
               = Matched ps) /\
   Js.ToString (Js.get (query (payment_request "42" filter_shadowing_toString))
                       "filter") = None).
Proof.
  assert (R : reaches_routes App.noUserRoutes
                (payment_request "42" filter_shadowing_toString) tt)
    by (eexists _, tt; split; reflexivity).
  split; [exact R|].
  exact (routes_answer_with_five_statuses unit App.noUserRoutes
           (payment_request "42" filter_shadowing_toString) tt R).
Defined.

(** ** Mount order *)

Lemma routes_swap (State : Type) (err : option (option Z)) (req : Request)
      (st : State) :
  handle [Use (App.paymentRoute State); Get "/" (stateless App.root)]
         err [] req st
  = handle [Get "/" (stateless App.root); Use (App.paymentRoute State)]
           err [] req st.
Proof.
  destruct err as [code|].
  - cbn [handle]. destruct (match_path "/" (path req)); reflexivity.
  - cbn [handle]. unfold App.paymentRoute. rewrite payment_router_cases.
    destruct (match_path "/" (path req)) as [|ps0|] eqn:Hroot.
    + cbn [handle]. rewrite ?payment_router_cases.
      destruct (match_path "/users/:id/payment" (path req)) as [|ps|];
        cbn [handle]; rewrite ?Hroot; try reflexivity.
      destruct (method req) eqn:Hm;
        repeat (cbn [handle handles_method]; rewrite ?Hm, ?Hroot);
        rewrite ?payment_handler_cases;
        try destruct (Payment.template _ _);
        repeat (cbn [handle handles_method]; rewrite ?Hm, ?Hroot);
        reflexivity.
    + rewrite (routes_disjoint _ _ Hroot).
      destruct (method req) eqn:Hm;
        repeat (cbn [handle handles_method stateless App.root];
                rewrite ?Hm, ?Hroot, ?payment_router_cases,
                  ?(routes_disjoint _ _ Hroot));
        reflexivity.
    + exfalso. exact (root_never_fails_to_decode _ Hroot).
Qed.

Lemma handle_use_none (State : Type) (fn : Middleware State)
      (rest : list (Layer State)) (options : list string)
      (req : Request) (st : State) :
  handle (Use fn :: rest) None options req st
  = match fn req st with
    | (Responded r, st') => (Responded r, st')
    | (Next req', st') => handle rest None options req' st'
    | (Failed code, st') => handle rest (Some code) options req st'
    end.
Proof. reflexivity. Qed.

Lemma handle_use_failed (State : Type) (fn : Middleware State)
      (rest : list (Layer State)) (code : option Z) (options : list string)
      (req : Request) (st : State) :
  handle (Use fn :: rest) (Some code) options req st
  = handle rest (Some code) options req st.
Proof. reflexivity. Qed.

(** X16: the payment router and the root route never compete for a request,
    so the order in which [app.js] mounts them is immaterial: with the root
    route declared before [app.use(paymentRoute)] the application answers
    every request, in every state and with every User router, as it does
    now. *)
Theorem payment_and_root_commute
        (State : Type) (userRoute : Middleware State)
        (req : Request) (st : State) :
  App.app userRoute req st
  = application [ Use (stateless Express.json);
                  Use userRoute;
                  Get "/" (stateless App.root);
                  Use (App.paymentRoute State) ] req st.
Proof.
  unfold App.app, App.stack, application.
  rewrite !handle_use_none.
  change (stateless Express.json req st) with (Express.json req, st).
  destruct (Express.json req) as [r|req1|code].
  - reflexivity.
  - cbv beta iota. rewrite !handle_use_none.
    destruct (userRoute req1 st) as [[r|req2|code] st1]; cbv beta iota.
    + reflexivity.
    + rewrite (routes_swap State None req2 st1). reflexivity.
    + rewrite (routes_swap State (Some code) req1 st1). reflexivity.
  - cbv beta iota.
    rewrite (handle_use_failed State userRoute
               [Use (App.paymentRoute State); Get "/" (stateless App.root)]).
    rewrite (handle_use_failed State userRoute
               [Get "/" (stateless App.root); Use (App.paymentRoute State)]).
    rewrite (routes_swap State (Some code) req st). reflexivity.
Qed.

(** ** What the routes read *)

Lemma header_without_body_headers (hs : list (string * string)) (name : string) :
  describes_body name = false ->
  header (filter (fun h => negb (describes_body (fst h))) hs) name
  = header hs name.
Proof.
  intros Hn. induction hs as [|[k v] r IH]; [reflexivity|].
  cbn [filter fst header].
  destruct (describes_body k) eqn:Hk; cbn [negb header].
  - destruct (String.eqb k name) eqn:E; [|exact IH].
    apply String.eqb_eq in E. subst k. rewrite Hn in Hk. discriminate Hk.
  - rewrite IH. reflexivity.
Qed.

(** Freshness looks at the validators and at Cache-Control only. *)
Lemma fresh_without_body_headers (hs : list (string * string)) (etag : string) :
  Fresh.fresh (filter (fun h => negb (describes_body (fst h))) hs) etag
  = Fresh.fresh hs etag.
Proof.
  unfold Fresh.fresh.
  rewrite (header_without_body_headers hs "if-modified-since" eq_refl).
  rewrite (header_without_body_headers hs "if-none-match" eq_refl).
  rewrite (header_without_body_headers hs "cache-control" eq_refl).
  reflexivity.
Qed.

(** The answer of the routes is a function of the method, the path, the query
    and the freshness of the request. *)
Lemma routes_read_four_fields (State : Type) (r1 r2 : Request) (s1 s2 : State) :
  method r1 = method r2 -> path r1 = path r2 ->
  query r1 = query r2 ->
  (forall etag, Fresh.fresh (headers r1) etag = Fresh.fresh (headers r2) etag) ->
  fst (application [Use (App.paymentRoute State); Get "/" (stateless App.root)]
                   r1 s1)
  = fst (application [Use (App.paymentRoute State); Get "/" (stateless App.root)]
                     r2 s2).
Proof.
  intros Hm Hp Hq Hh. rewrite !routes_cases. cbn [fst].
  unfold root_answer, send_options, Res.send, Fresh.req_fresh.
  cbn [method headers set_params].
  rewrite Hm, Hp, Hq.
  destruct (match_path "/users/:id/payment" (path r2)) as [|ps|];
    [destruct (match_path "/" (path r2)) | |];
    destruct (method r2);
    try destruct (Payment.template (Js.get ps "id") (Js.get (query r2) "filter"));
    rewrite ?Hh; reflexivity.
Qed.

(** X17: a JSON body the parser accepts changes nothing: the handlers never
    read [req.body], so a request with such a body is answered exactly as the
    same request sent without a body (no entity, and none of the headers
    Content-Type, Content-Length, Content-Encoding and Transfer-Encoding that
    describe one), on every path and for every method (both requests getting
    past the User router). *)
Theorem accepted_body_is_ignored
        (State : Type) (userRoute : Middleware State)
        (req : Request) (st st' : State) :
  reaches_routes userRoute req st ->
  reaches_routes userRoute (without_body req) st' ->
  fst (App.app userRoute req st)
  = fst (App.app userRoute (without_body req) st').
Proof.
  intros Hr Hr'.
  destruct (app_reaches_routes State userRoute _ _ Hr) as (b1 & s1 & E1).
  destruct (app_reaches_routes State userRoute _ _ Hr') as (b2 & s2 & E2).
  rewrite E1, E2. apply routes_read_four_fields; try reflexivity.
  intros etag. symmetry. apply fresh_without_body_headers.
Qed.

Lemma accepted_body_is_ignored_witness :
  reaches_routes App.noUserRoutes get_42_recent_dressed tt /\
  reaches_routes App.noUserRoutes (without_body get_42_recent_dressed) tt /\
  headers (without_body get_42_recent_dressed)
  = [("user-agent", "curl/8.0"); ("accept", "text/plain")] /\
  fst (App.app App.noUserRoutes get_42_recent_dressed tt)
  = fst (App.app App.noUserRoutes (without_body get_42_recent_dressed) tt).
Proof.
  assert (R1 : reaches_routes App.noUserRoutes get_42_recent_dressed tt)
    by (exists (set_body get_42_recent_dressed (Some "[1, 2, 3]")), tt;
        split; reflexivity).
  assert (R2 : reaches_routes App.noUserRoutes
                 (without_body get_42_recent_dressed) tt)
    by (exists (without_body get_42_recent_dressed), tt; split; reflexivity).
  split; [exact R1|]. split; [exact R2|]. split; [reflexivity|].
  exact (accepted_body_is_ignored unit App.noUserRoutes
           get_42_recent_dressed tt tt R1 R2).
Defined.

(** ** Sizes *)

Lemma length_append (a b : string) :
  String.length (a ++ b) = String.length a + String.length b.
Proof. induction a as [|x a IH]; simpl; [reflexivity | rewrite IH; reflexivity]. Qed.

Lemma escape_length (s r : string) (b : Z) :
  Js.escape s = Some (b, r) -> String.length s = 3 + String.length r.
Proof.
  destruct s as [|p s']; [discriminate|].
  destruct (Ascii.ascii_dec p "%") as [->|Hp].
  - destruct s' as [|x [|y r']]; try discriminate.
    unfold Js.escape.
    destruct (Js.hexval x), (Js.hexval y); try discriminate.
    intros H. inversion H. reflexivity.
  - destruct p as [[] [] [] [] [] [] [] []]; cbn; try discriminate.
    exfalso. apply Hp. reflexivity.
Qed.

Lemma continuation_length (n : nat) :
  forall (s r : string) (bs : list Z),
  Js.continuation n s = Some (bs, r) ->
  String.length s = 3 * n + String.length r /\ List.length bs = n.
Proof.
  induction n as [|n IH]; intros s r bs H.
  - inversion H. split; reflexivity.
  - cbn [Js.continuation] in H.
    destruct (Js.escape s) as [[b r1]|] eqn:He; [|discriminate H].
    destruct ((128 <=? b) && (b <? 192))%Z; [|discriminate H].
    destruct (Js.continuation n r1) as [[bs' r']|] eqn:Hc; [|discriminate H].
    inversion H. subst. destruct (IH _ _ _ Hc) as [Hl Hb].
    apply escape_length in He. cbn [List.length]. lia.
Qed.

Lemma bytes_to_string_length (l : list Z) :
  String.length (Js.bytes_to_string l) = List.length l.
Proof. induction l as [|b l IH]; simpl; [reflexivity | rewrite IH; reflexivity]. Qed.

(** Decoding never lengthens a text. *)
Lemma decode_length (fuel : nat) :
  forall s d : string,
  Js.decode fuel s = Some d -> String.length d <= String.length s.
Proof.
  induction fuel as [|f IH]; intros s d H; [discriminate H|].
  destruct s as [|c r]; [inversion H; reflexivity|].
  cbn [Js.decode] in H.
  destruct (Ascii.eqb c "%") eqn:Hc.
  - destruct (Js.escape (String c r)) as [[b r1]|] eqn:He; [|discriminate H].
    apply escape_length in He.
    assert (Hcont : forall n,
               match Js.continuation n r1 with
               | Some (cont, r2) =>
                   if Js.valid_code_point (S n) (Js.code_point b (S n) cont)
                   then option_map (append (Js.bytes_to_string (b :: cont)))
                                   (Js.decode f r2)
                   else None
               | None => None
               end = Some d ->
               String.length d <= String.length (String c r)).
    { intros n Hn.
      destruct (Js.continuation n r1) as [[cont r2]|] eqn:Hk; [|discriminate Hn].
      destruct (Js.valid_code_point (S n) (Js.code_point b (S n) cont));
        [|discriminate Hn].
      destruct (Js.decode f r2) as [d'|] eqn:Hd; [|discriminate Hn].
      cbn [option_map] in Hn. injection Hn as <-.
      destruct (continuation_length _ _ _ _ Hk) as [Hl Hb].
      apply IH in Hd.
      assert (Hlen : String.length (Js.bytes_to_string (b :: cont) ++ d')
                     = S (List.length cont) + String.length d')
        by (rewrite length_append, bytes_to_string_length; reflexivity).
      apply (Nat.le_trans _ (S (List.length cont) + String.length d'));
        [apply Nat.eq_le_incl; exact Hlen|].
      cbn [String.length] in *. lia. }
    destruct (Js.leading_ones b) as [|[|[|[|[|[|k]]]]]] eqn:Hlo;
      try discriminate H.
    + destruct (Js.decode f r1) as [d'|] eqn:Hd; [|discriminate H].
      inversion H. subst d. apply IH in Hd. rewrite He. cbn [String.length]. lia.
    + apply (Hcont 1). exact H.
    + apply (Hcont 2). exact H.
    + apply (Hcont 3). exact H.
    + apply (Hcont (5 + k)). exact H.
  - destruct (Js.decode f r) as [d'|] eqn:Hd; [|discriminate H].
    inversion H. subst d. apply IH in Hd. cbn [String.length]. lia.
Qed.

(** X18: the echo does not amplify: for an id that is a path segment and
    decodes, and a filter that converts to a string, the body of the answer
    to a plain GET request is at most 19 bytes longer than the segment and
    the text of the filter together (the decoded id is never longer than the
    segment that encodes it). *)
Theorem echo_is_at_most_19_bytes_longer
        (State : Type) (userRoute : Middleware State)
        (req : Request) (st st1 : State) (id d text : string) :
  plain_get req ("/users/" ++ id ++ "/payment") ->
  is_segment id = true ->
  Js.decodeURIComponent id = Some d ->
  Js.ToString (Js.get (query req) "filter") = Some text ->
  passes userRoute req st st1 ->
  exists body,
    sent_body (fst (App.app userRoute req st)) = Some body /\
    String.length body <= 19 + String.length id + String.length text.
Proof.
  intros Hplain Hseg Hdec Hf Hu.
  rewrite (plain_get_payment State userRoute req st st1 id d text
             Hplain Hseg Hdec Hf Hu).
  eexists. split; [reflexivity|].
  rewrite !length_append.
  apply decode_length in Hdec.
  change (String.length "User ID: ") with 9.
  change (String.length ", Filter: ") with 10. lia.
Qed.

Lemma echo_is_at_most_19_bytes_longer_witness :
  plain_get get_escaped_id ("/users/" ++ "a%2Fb%20c" ++ "/payment") /\
  is_segment "a%2Fb%20c" = true /\
  Js.decodeURIComponent "a%2Fb%20c" = Some "a/b c" /\
  Js.ToString (Js.get (query get_escaped_id) "filter") = Some "recent" /\
  passes App.noUserRoutes get_escaped_id tt tt /\
  exists body,
    sent_body (fst (App.app App.noUserRoutes get_escaped_id tt)) = Some body /\
    String.length body
    <= 19 + String.length "a%2Fb%20c" + String.length "recent".
Proof.
  assert (Hp : plain_get get_escaped_id ("/users/" ++ "a%2Fb%20c" ++ "/payment"))
    by (repeat split; reflexivity).
  assert (Hu : passes App.noUserRoutes get_escaped_id tt tt) by reflexivity.
  do 5 (split; [first [exact Hp | exact Hu | reflexivity]|]).
  exact (echo_is_at_most_19_bytes_longer unit App.noUserRoutes
           get_escaped_id tt tt "a%2Fb%20c" "a/b c" "recent"
           Hp eq_refl eq_refl eq_refl Hu).
Defined.
